(** * clashroyale.client: the request / cache / model-conversion pipeline

    A shallow embedding of [clashroyale/client.py].  The client talks to
    three collaborators that live outside the module: the HTTP session,
    the [SqliteDict] cache and the clock ([datetime.utcnow]).  They are
    modelled as an environment of oracles plus an explicit world state
    that every method threads; exceptions are an explicit outcome.

    Time is counted in integer microseconds on the naive-UTC axis, so
    that [fromts (d.timestamp ())] is [d] and [total_seconds () < n] is
    [age < n * 1000000]. *)

From stdpp Require Import gmap strings list pretty.
From Stdlib Require Import ZArith Ascii String.

Set Warnings "-register-all".

Local Open Scope string_scope.
Local Open Scope list_scope.
Local Open Scope Z_scope.

(** ** Python values *)

(** What [json.loads] produces (numbers kept as integers: no branch of the
    client looks inside a number). *)
Inductive pyval : Type :=
  | VNone
  | VBool (b : bool)
  | VNum (n : Z)
  | VStr (s : string)
  | VList (l : list pyval)
  | VDict (d : list (string * pyval)).

(** Values that travel as keyword arguments ([**params]). *)
Inductive arg : Type :=
  | ANone
  | ABool (b : bool)
  | AInt (n : Z)
  | AStr (s : string).

(** A keyword dictionary, in insertion order. *)
Definition kwargs : Type := list (string * arg).

(** [str(v)] *)
Definition py_str (v : arg) : string :=
  match v with
  | ANone => "None"
  | ABool true => "True"
  | ABool false => "False"
  | AInt n => pretty n
  | AStr s => s
  end.

(** [x is False] *)
Definition is_False (v : arg) : bool :=
  match v with
  | ABool false => true
  | _ => false
  end.

(** [kw.get(k, d)] and the dictionary without [k]. *)
Fixpoint kw_get (k : string) (kw : kwargs) : option arg :=
  match kw with
  | [] => None
  | (k', v) :: rest => if String.eqb k k' then Some v else kw_get k rest
  end.

Definition kw_remove (k : string) (kw : kwargs) : kwargs :=
  List.filter (fun kv => negb (String.eqb k (fst kv))) kw.

(** ** urllib.parse.urlencode *)

Module Url.

Definition in_range (lo hi : N) (c : ascii) : bool :=
  let n := N_of_ascii c in ((lo <=? n) && (n <=? hi))%N.

(** The characters [quote] never escapes: letters, digits and [_.-~]. *)
Definition always_safe (c : ascii) : bool :=
  in_range 65 90 c || in_range 97 122 c || in_range 48 57 c
  || Ascii.eqb c "_" || Ascii.eqb c "." || Ascii.eqb c "-" || Ascii.eqb c "~".

Definition hex_digit (n : N) : ascii :=
  if (n <? 10)%N then ascii_of_N (48 + n) else ascii_of_N (55 + n).

(** ['%{:02X}'.format(byte)] *)
Definition percent (c : ascii) : string :=
  let n := N_of_ascii c in
  String "%" (String (hex_digit (n / 16)) (String (hex_digit (n mod 16)) "")).

(** [quote_plus]: a space becomes [+], every other unsafe byte [%XX]. *)
Fixpoint quote_plus (s : string) : string :=
  match s with
  | EmptyString => EmptyString
  | String c rest =>
      (if always_safe c then String c ""
       else if Ascii.eqb c " " then "+"
       else percent c) +:+ quote_plus rest
  end.

Fixpoint join (sep : string) (l : list string) : string :=
  match l with
  | [] => ""
  | [x] => x
  | x :: rest => x +:+ sep +:+ join sep rest
  end.

(** [urlencode(params)] for a dictionary of scalars. *)
Definition urlencode (params : kwargs) : string :=
  join "&" (List.map (fun kv => quote_plus (fst kv) +:+ "=" +:+ quote_plus (py_str (snd kv))) params).

End Url.

(** ** The client object *)

(** The keyword options [__init__] reads with [options.get]. *)
Record options : Type := {
  opt_timeout : option Z;
  opt_camel_case : option bool;
  opt_cache_fp : option string;
  opt_cache_expires : option Z;
  opt_table_name : option string
}.

Definition no_options : options :=
  {| opt_timeout := None; opt_camel_case := None; opt_cache_fp := None;
     opt_cache_expires := None; opt_table_name := None |}.

Record Client : Type := {
  token : string;
  is_async : bool;
  timeout : Z;
  camel_case : bool;
  headers : list (string * string);
  cache_fp : option string;
  using_cache : bool;
  cache_reset : Z;
  cache_table : option string
}.

(** [bool(self.cache_fp)]: [None] and the empty string are false. *)
Definition truthy_fp (fp : option string) : bool :=
  match fp with
  | None => false
  | Some s => negb (String.eqb s "")
  end.

(** [Client.__init__(token, session=None, is_async=False, **options)].
    The session itself is part of the environment below. *)
Definition __init__ (tok : string) (async : bool) (o : options) : Client :=
  let fp := opt_cache_fp o in
  let uc := truthy_fp fp in
  {| token := tok;
     is_async := async;
     timeout := default 10 (opt_timeout o);
     camel_case := default false (opt_camel_case o);
     headers := [("Authorization", "Bearer " +:+ tok);
                 ("user-agent", "python-clashroyale-client (kyb3r)")];
     cache_fp := fp;
     using_cache := uc;
     cache_reset := default 300 (opt_cache_expires o);
     cache_table := if uc then Some (default "cache" (opt_table_name o)) else None |}.

(** ** Collaborators: HTTP responses, the cache, the clock *)

(** A response object.  A [requests] response has [status_code] and no
    [status]; an [aiohttp] response has [status]. *)
Record response : Type := {
  resp_status : option Z;
  resp_status_code : option Z;
  resp_url : string;
  resp_text : string
}.

(** What one [session.get] does. *)
Inductive http_outcome : Type :=
  | HResponse (r : response)
  | HTimeout
  | HFailure (msg : string).

(** Modelled from the spec: the cache is the [SqliteDict] of [utils.py],
    "an external key-value store with get/set semantics", keyed by a
    string.  This is the value the client stores under a key. *)
Record cached_data : Type := {
  c_timestamp : Z;
  data : pyval
}.

(** Modelled from the spec: the four exception classes of [errors.py]
    (the first three carry the response and the body), followed by the
    library and interpreter exceptions the client meets. *)
Inductive error : Type :=
  | Unauthorized (r : response) (d : pyval)
  | NotFoundError (r : response) (d : pyval)
  | ServerError (r : response) (d : pyval)
  | NotResponding
  | RequestsTimeout
  | AsyncioTimeoutError
  | ConnectionError (msg : string)
  | AttributeError (msg : string)
  | TypeError (msg : string).

(** The four kinds the library documents. *)
Definition in_taxonomy (e : error) : bool :=
  match e with
  | Unauthorized _ _ | NotFoundError _ _ | ServerError _ _ | NotResponding => true
  | _ => false
  end.

(** Observable interactions with the collaborators. *)
Inductive event : Type :=
  | CacheGet (bucket : string)
  | CacheSet (key : string) (v : cached_data)
  | HttpGet (url : string) (tmo : Z) (hdrs : list (string * string)) (params : kwargs).

Definition is_cache_get (e : event) : bool :=
  match e with CacheGet _ => true | _ => false end.

Definition is_cache_set (e : event) : bool :=
  match e with CacheSet _ _ => true | _ => false end.

(** The mutable world: the cache table, how often the clock and the
    session were used, and the interactions so far (oldest first). *)
Record world : Type := {
  cache : gmap string cached_data;
  clock_reads : nat;
  http_calls : nat;
  trace : list event
}.

(** The oracles: the JSON parser, the clock (value of the n-th read) and
    the server (outcome of the n-th GET). *)
Record env : Type := {
  json_loads : string -> option pyval;
  clock : nat -> Z;
  server : nat -> string -> kwargs -> http_outcome
}.

(** ** A state-and-exception monad *)

Inductive outcome (A : Type) : Type :=
  | Return (a : A)
  | Raise (e : error).
Arguments Return {A} a.
Arguments Raise {A} e.

Definition M (A : Type) : Type := world -> outcome A * world.

Definition ret {A} (a : A) : M A := fun w => (Return a, w).
Definition raise {A} (e : error) : M A := fun w => (Raise e, w).

Definition bind {A B} (m : M A) (k : A -> M B) : M B :=
  fun w => match m w with
           | (Return a, w') => k a w'
           | (Raise e, w') => (Raise e, w')
           end.

(** [try: m  except Exception as e: h e] *)
Definition try_except {A} (m : M A) (h : error -> M A) : M A :=
  fun w => match m w with
           | (Return a, w') => (Return a, w')
           | (Raise e, w') => h e w'
           end.

Notation "x <- m ;; k" := (bind m (fun x => k))
  (at level 90, m at level 80, right associativity,
   format "'[v' x  <-  m  ;; '/' k ']'").

(** A value a caller may have to await: either it is there already, or it
    is a coroutine object, whose body runs when it is awaited. *)
Inductive awaitable (A : Type) : Type :=
  | Value (a : A)
  | Coroutine (body : M A).
Arguments Value {A} a.
Arguments Coroutine {A} body.

(** [await x] *)
Definition await {A} (x : awaitable A) : M A :=
  match x with
  | Coroutine body => body
  | Value _ => raise (TypeError "object can't be used in 'await' expression")
  end.

(** What [request] hands back: [None] or [(value, cached, last_updated)]. *)
Inductive pyret : Type :=
  | RNone
  | RTuple (d : pyval) (cached : bool) (ts : Z).

(** [x is not None] on what [_resolve_cache] returns. *)
Definition is_not_None (x : awaitable pyret) : bool :=
  match x with
  | Value RNone => false
  | _ => true
  end.

(** [data, cached, ts = x] *)
Definition unpack3 (x : awaitable pyret) : M (pyval * bool * Z) :=
  match x with
  | Value (RTuple d c t) => ret (d, c, t)
  | Value RNone => raise (TypeError "cannot unpack non-iterable NoneType object")
  | Coroutine _ => raise (TypeError "cannot unpack non-iterable coroutine object")
  end.

(** Modelled from the spec: the model classes and [rlist] of [models.py],
    "constructed from (client reference, raw payload, served_from_cache
    flag, timestamp)".  An instance is the class together with the
    arguments its constructor was called with; [converted] is what
    [_convert_model] returns. *)
Inductive model_class : Type :=
  | AuthStats | Clan | ClanInfo | Constants | Player | PlayerInfo | Tournament.

Record instance : Type := {
  i_class : model_class;
  i_client : Client;
  i_data : pyval;
  i_cached : bool;
  i_ts : Z
}.

Inductive converted : Type :=
  | OStr (s : string)
  | ORlist (self : Client) (l : list pyval) (cached : bool) (ts : Z)
  | OList (l : list instance)
  | OModel (i : instance).

(** [isinstance(x, str)] *)
Definition is_str (x : pyval) : bool :=
  match x with VStr _ => true | _ => false end.

(** [datetime.fromtimestamp] and [datetime.timestamp] on the microsecond axis. *)
Definition fromts (t : Z) : Z := t.
Definition timestamp (d : Z) : Z := d.

(** ** The methods of [Client] *)

Section Methods.

Context (E : env).

(** [datetime.utcnow()] *)
Definition utcnow : M Z :=
  fun w => (Return (clock E (clock_reads w)),
            {| cache := cache w; clock_reads := S (clock_reads w);
               http_calls := http_calls w; trace := trace w |}).

(** [self.cache.get(bucket)] *)
Definition cache_get (bucket : string) : M (option cached_data) :=
  fun w => (Return (cache w !! bucket),
            {| cache := cache w; clock_reads := clock_reads w;
               http_calls := http_calls w; trace := trace w ++ [CacheGet bucket] |}).

(** [self.cache[key] = v] *)
Definition cache_set (key : string) (v : cached_data) : M unit :=
  fun w => (Return tt,
            {| cache := <[key := v]> (cache w); clock_reads := clock_reads w;
               http_calls := http_calls w; trace := trace w ++ [CacheSet key v] |}).

(** [self.session.get(url, timeout=.., headers=.., params=..)]; the
    library's own timeout exception is [timeout_exc]. *)
Definition session_get (self : Client) (timeout_exc : error)
    (url : string) (params : kwargs) : M response :=
  fun w =>
    let w' := {| cache := cache w; clock_reads := clock_reads w;
                 http_calls := S (http_calls w);
                 trace := trace w ++ [HttpGet url (timeout self) (headers self) params] |} in
    match server E (http_calls w) url params with
    | HResponse r => (Return r, w')
    | HTimeout => (Raise timeout_exc, w')
    | HFailure msg => (Raise (ConnectionError msg), w')
    end.

(** [async def _wrap_coro(self, arg): return arg] *)
Definition _wrap_coro {A} (x : A) : awaitable A := Coroutine (ret x).

(** The cache key of a request. *)
Definition bucket_of (url : string) (params : kwargs) : string :=
  url +:+ (match params with
           | [] => ""
           | _ => "?" +:+ Url.urlencode params
           end).

Definition _resolve_cache (self : Client) (url : string) (params : kwargs)
    : M (awaitable pyret) :=
  let bucket := bucket_of url params in
  cached_data <- cache_get bucket ;;
  match cached_data with
  | None => ret (Value RNone)
  | Some cd =>
      let last_updated := fromts (c_timestamp cd) in
      now <- utcnow ;;
      if now - last_updated <? cache_reset self * 1000000 then
        let r := RTuple (data cd) true last_updated in
        if is_async self then ret (_wrap_coro r) else ret (Value r)
      else ret (Value RNone)
  end.

(** [getattr(resp, 'status', None) or getattr(resp, 'status_code')]:
    a missing or zero [status] falls through to [status_code], and a
    missing [status_code] is an [AttributeError] ([None] here). *)
Definition code_of (resp : response) : option Z :=
  match resp_status resp with
  | Some n => if n =? 0 then resp_status_code resp else Some n
  | None => resp_status_code resp
  end.

Definition status_of (resp : response) : M Z :=
  match code_of resp with
  | Some n => ret n
  | None => raise (AttributeError "status_code")
  end.

(** [json.loads(text)], falling back to the text itself. *)
Definition parse_body (text : string) : pyval :=
  match json_loads E text with
  | Some d => d
  | None => VStr text
  end.

Definition _raise_for_status (self : Client) (resp : response) (text : string)
    : M pyret :=
  let d := parse_body text in
  code <- status_of resp ;;
  if (code <? 300) && (200 <=? code) then
    _ <- (if using_cache self then
            t <- utcnow ;;
            cache_set (resp_url resp) {| c_timestamp := timestamp t; data := d |}
          else ret tt) ;;
    t <- utcnow ;;
    ret (RTuple d false t)
  else if code =? 401 then raise (Unauthorized resp d)
  else if code =? 404 then raise (NotFoundError resp d)
  else if 500 <=? code then raise (ServerError resp d)
  else ret RNone.

(** [except T: raise NotResponding()]: only the exception [T] is caught. *)
Definition timeout_to_NotResponding {A} (t : error -> bool) (m : M A) : M A :=
  try_except m (fun e => if t e then raise NotResponding else raise e).

Definition is_requests_timeout (e : error) : bool :=
  match e with RequestsTimeout => true | _ => false end.

Definition is_asyncio_timeout (e : error) : bool :=
  match e with AsyncioTimeoutError => true | _ => false end.

Definition _arequest (self : Client) (url : string) (params : kwargs) : M pyret :=
  timeout_to_NotResponding is_asyncio_timeout
    (resp <- session_get self AsyncioTimeoutError url params ;;
     _raise_for_status self resp (resp_text resp)).

Definition request (self : Client) (url : string) (refresh : arg) (params : kwargs)
    : M (awaitable pyret) :=
  let network : M (awaitable pyret) :=
    if is_async self then ret (Coroutine (_arequest self url params))
    else
      timeout_to_NotResponding is_requests_timeout
        (resp <- session_get self RequestsTimeout url params ;;
         r <- _raise_for_status self resp (resp_text resp) ;;
         ret (Value r)) in
  if using_cache self && is_False refresh then
    cache <- _resolve_cache self url params ;;
    if is_not_None cache then ret cache else network
  else network.

(** [model(self, d, cached=cached, ts=ts)]; [model] defaults to [None]
    in [_get_model], and calling [None] is a [TypeError]. *)
Definition construct (model : option model_class) (self : Client)
    (d : pyval) (cached : bool) (ts : Z) : outcome instance :=
  match model with
  | Some m => Return {| i_class := m; i_client := self; i_data := d;
                        i_cached := cached; i_ts := ts |}
  | None => Raise (TypeError "'NoneType' object is not callable")
  end.

(** The list comprehension: stops at the first constructor that raises. *)
Fixpoint construct_all (model : option model_class) (self : Client)
    (l : list pyval) (cached : bool) (ts : Z) : outcome (list instance) :=
  match l with
  | [] => Return []
  | d :: rest =>
      match construct model self d cached ts with
      | Raise e => Raise e
      | Return i =>
          match construct_all model self rest cached ts with
          | Raise e => Raise e
          | Return tl => Return (i :: tl)
          end
      end
  end.

Definition _convert_model (self : Client) (d : pyval) (cached : bool) (ts : Z)
    (model : option model_class) : outcome converted :=
  match d with
  | VStr s => Return (OStr s)
  | VList l =>
      if forallb is_str l then Return (ORlist self l cached ts)
      else match construct_all model self l cached ts with
           | Return ms => Return (OList ms)
           | Raise e => Raise e
           end
  | _ => match construct model self d cached ts with
         | Return i => Return (OModel i)
         | Raise e => Raise e
         end
  end.

Definition lift {A} (o : outcome A) : M A := fun w => (o, w).

(** [self.request(url, **params)]: a [refresh] key binds the named
    parameter, the other keys stay in [params]. *)
Definition request_kw (self : Client) (url : string) (kw : kwargs) : M (awaitable pyret) :=
  request self url (default (ABool false) (kw_get "refresh" kw)) (kw_remove "refresh" kw).

(** The [except Exception as e] block shared by both variants. *)
Definition fallback (self : Client) (url : string) (params : kwargs) (e : error)
    : M (pyval * bool * Z) :=
  assigned <- (if using_cache self then
                 cache <- _resolve_cache self url params ;;
                 if is_not_None cache then
                   t <- unpack3 cache ;; ret (Some t)
                 else ret None
               else ret None) ;;
  match assigned with
  | Some t => ret t
  | None => raise e
  end.

Definition _aget_model (self : Client) (url : string) (model : option model_class)
    (params : kwargs) : M converted :=
  t <- try_except
         (x <- request_kw self url params ;;
          r <- await x ;;
          unpack3 (Value r))
         (fallback self url params) ;;
  let '(d, cached, ts) := t in
  lift (_convert_model self d cached ts model).

Definition _get_model (self : Client) (url : string) (model : option model_class)
    (params : kwargs) : M (awaitable converted) :=
  if is_async self then ret (Coroutine (_aget_model self url model params))
  else
    t <- try_except
           (x <- request_kw self url params ;;
            unpack3 x)
           (fallback self url params) ;;
    let '(d, cached, ts) := t in
    r <- lift (_convert_model self d cached ts model) ;;
    ret (Value r).

(** Driving a call to completion: a blocking client already returned the
    value, a deferred one returned a coroutine that is awaited. *)
Definition complete {A} (m : M (awaitable A)) : M A :=
  x <- m ;;
  match x with
  | Value a => ret a
  | Coroutine body => body
  end.

End Methods.

(** * Vocabulary for the statements *)

(** The same client in the other mode. *)
Definition set_async (b : bool) (c : Client) : Client :=
  {| token := token c; is_async := b; timeout := timeout c;
     camel_case := camel_case c; headers := headers c; cache_fp := cache_fp c;
     using_cache := using_cache c; cache_reset := cache_reset c;
     cache_table := cache_table c |}.

(** What a model constructor is called with. *)
Definition built (self : Client) (cached : bool) (ts : Z) (m : model_class) (d : pyval)
    : instance :=
  {| i_class := m; i_client := self; i_data := d; i_cached := cached; i_ts := ts |}.

(** [isinstance(d, list)] *)
Definition is_list (d : pyval) : bool :=
  match d with VList _ => true | _ => false end.

(** The entry [_resolve_cache] accepts in world [w]: present under the
    key, and younger than [cache_reset] seconds at the next clock reading. *)
Definition valid_entry (E : env) (self : Client) (w : world) (key : string)
    : option cached_data :=
  match cache w !! key with
  | Some cd =>
      if clock E (clock_reads w) - c_timestamp cd <? cache_reset self * 1000000
      then Some cd else None
  | None => None
  end.

(** The world after one cache resolution: the lookup is recorded, and
    the clock was read if an entry was there. *)
Definition after_lookup (w : world) (key : string) : world :=
  {| cache := cache w;
     clock_reads := match cache w !! key with
                    | Some _ => S (clock_reads w)
                    | None => clock_reads w
                    end;
     http_calls := http_calls w;
     trace := trace w ++ [CacheGet key] |}.

(** The triple a cache hit yields. *)
Definition hit (cd : cached_data) : pyret :=
  RTuple (data cd) true (c_timestamp cd).

(** The world once the session has been asked. *)
Definition after_get (self : Client) (w : world) (url : string) (params : kwargs) : world :=
  {| cache := cache w; clock_reads := clock_reads w;
     http_calls := S (http_calls w);
     trace := trace w ++ [HttpGet url (timeout self) (headers self) params] |}.

(** The network step both modes perform, once driven to completion: one
    GET, a timeout turned into [NotResponding], a response classified. *)
Definition fetch (E : env) (self : Client) (url : string) (params : kwargs) : M pyret :=
  fun w =>
    match server E (http_calls w) url params with
    | HResponse r => _raise_for_status E self r (resp_text r) (after_get self w url params)
    | HTimeout => (Raise NotResponding, after_get self w url params)
    | HFailure msg => (Raise (ConnectionError msg), after_get self w url params)
    end.

(** Whether [request] starts with a cache lookup. *)
Definition consults_cache (self : Client) (refresh : arg) : bool :=
  using_cache self && is_False refresh.

Definition unpack_None : error :=
  TypeError "cannot unpack non-iterable NoneType object".
Definition unpack_coroutine : error :=
  TypeError "cannot unpack non-iterable coroutine object".

(** The [except] block, entered with exception [e] in world [w]. *)
Definition recover (E : env) (self : Client) (url : string) (params : kwargs)
    (e : error) (w : world) : outcome (pyval * bool * Z) * world :=
  if using_cache self then
    match valid_entry E self w (bucket_of url params) with
    | Some cd =>
        if is_async self
        then (Raise unpack_coroutine, after_lookup w (bucket_of url params))
        else (Return (data cd, true, c_timestamp cd), after_lookup w (bucket_of url params))
    | None => (Raise e, after_lookup w (bucket_of url params))
    end
  else (Raise e, w).

(** The [try] body of [_get_model] and of [_aget_model]. *)
Definition attempt (E : env) (self : Client) (url : string) (params : kwargs)
    : M (pyval * bool * Z) :=
  if is_async self then
    x <- request_kw E self url params ;;
    r <- await x ;;
    unpack3 (Value r)
  else
    x <- request_kw E self url params ;;
    unpack3 x.

(** The triple handed to [_convert_model], or the exception raised
    before conversion. *)
Definition triple (E : env) (self : Client) (url : string) (params : kwargs)
    : M (pyval * bool * Z) :=
  try_except (attempt E self url params) (fallback E self url params).

(** The lookup key in words: the URL alone for a request without query
    parameters, otherwise the URL, a question mark and the encoded
    parameters. *)
Definition lookup_key (url : string) (params : kwargs) : string :=
  match params with
  | [] => url
  | _ => url +:+ "?" +:+ Url.urlencode params
  end.

(** The key worded as "the URL plus a question mark and the encoded
    parameters", for every request. *)
Definition stated_key (url : string) (params : kwargs) : string :=
  url +:+ "?" +:+ Url.urlencode params.


(** A clock that never runs backwards. *)
Definition monotone (E : env) : Prop :=
  forall n m : nat, (n <= m)%nat -> clock E n <= clock E m.

(** Two calls in a row. *)
Definition twice {A} (m : M A) : M (A * A) :=
  a <- m ;; b <- m ;; ret (a, b).

(** * Sample collaborators for concrete runs *)

(** A parser that knows two documents; everything else is not JSON. *)
Definition sample_json (s : string) : option pyval :=
  if String.eqb s "[]" then Some (VList [])
  else if String.eqb s "42" then Some (VNum 42)
  else None.

Definition with_cache : options :=
  {| opt_timeout := None; opt_camel_case := None; opt_cache_fp := Some "cache.db";
     opt_cache_expires := None; opt_table_name := None |}.

Definition plain_client : Client := __init__ "token" false no_options.
Definition blocking_client : Client := __init__ "token" false with_cache.
Definition deferred_client : Client := __init__ "token" true with_cache.

(** What a [requests] session and an [aiohttp] session answer with. *)
Definition requests_response (code : Z) (url text : string) : response :=
  {| resp_status := None; resp_status_code := Some code; resp_url := url; resp_text := text |}.

Definition aiohttp_response (code : Z) (url text : string) : response :=
  {| resp_status := Some code; resp_status_code := None; resp_url := url; resp_text := text |}.

(** A clock that advances one second per reading. *)
Definition ticking : nat -> Z := fun n => 1000000 * Z.of_nat n.

(** A server that answers every GET with the same status and body, the
    resolved URL being the requested one with its query string. *)
Definition always (code : Z) (text : string) : env :=
  {| json_loads := sample_json; clock := ticking;
     server := fun _ url params =>
       HResponse (requests_response code (bucket_of url params) text) |}.

(** The same server seen through an [aiohttp] session. *)
Definition always_aio (code : Z) (text : string) : env :=
  {| json_loads := sample_json; clock := ticking;
     server := fun _ url params =>
       HResponse (aiohttp_response code (bucket_of url params) text) |}.

(** A server that never answers in time. *)
Definition timing_out : env :=
  {| json_loads := sample_json; clock := ticking; server := fun _ _ _ => HTimeout |}.

(** A server reached through a redirect from [http] to [https]: the
    response carries the [https] URL. *)
Definition redirecting : env :=
  {| json_loads := sample_json; clock := ticking;
     server := fun _ url _ =>
       HResponse (requests_response 200
                    ("https" +:+ String.substring 4 (String.length url) url) "42") |}.

Definition clan_url : string := "http://api.cr-api.com/clan/2CCCP".

Definition clan_entry : cached_data :=
  {| c_timestamp := -5000000; data := VDict [("tag", VStr "#2CCCP")] |}.

(** The keyword arguments of a forced refresh. *)
Definition forced : kwargs := [("refresh", ABool true)].

Definition empty_world : world :=
  {| cache := ∅; clock_reads := 0; http_calls := 0; trace := [] |}.

(** A world whose cache holds one entry and in which nothing has happened. *)
Definition stocked (key : string) (cd : cached_data) : world :=
  {| cache := {[ key := cd ]}; clock_reads := 0; http_calls := 0; trace := [] |}.

(** A cache that holds the clan, five seconds old, both under the key of
    a plain request and under the key built when [refresh=True] is among
    the keyword arguments. *)
Definition stocked_world : world :=
  {| cache := <[clan_url := clan_entry]>
                (<[clan_url +:+ "?refresh=True" := clan_entry]> ∅);
     clock_reads := 0; http_calls := 0; trace := [] |}.

(** * The endpoint accessors *)

(** The endpoint table [API] of [utils.py], which is not part of the
    module: a parameter of the accessors. *)
Record api : Type := {
  API_AUTH : string;
  API_CLAN : string;
  API_CONSTANTS : string;
  API_ENDPOINTS : string;
  API_PLAYER : string;
  API_POPULAR : string;
  API_SEARCH : string;
  API_TOP : string;
  API_TOURNAMENT : string;
  API_VERSION : string
}.

(** The bodies of the accessors.  Where the source decorates a method
    with [@typecasted], the arguments here are the ones the body
    receives, after the converters of [utils.py] have run. *)
Section Accessors.

Context (E : env) (A : api).

Definition get_version (self : Client) : M (awaitable converted) :=
  _get_model E self (API_VERSION A) None [].

Definition get_endpoints (self : Client) : M (awaitable converted) :=
  _get_model E self (API_ENDPOINTS A) None [].

Definition get_tournament (self : Client) (tag : string) (params : kwargs)
    : M (awaitable converted) :=
  let url := (API_TOURNAMENT A +:+ "/") +:+ tag in
  _get_model E self url (Some Tournament) params.

Definition get_player (self : Client) (tags : list string) (params : kwargs)
    : M (awaitable converted) :=
  let url := (API_PLAYER A +:+ "/") +:+ Url.join "," tags in
  _get_model E self url (Some Player) params.

Definition get_players := get_player.

Definition get_clan (self : Client) (tags : list string) (params : kwargs)
    : M (awaitable converted) :=
  let url := (API_CLAN A +:+ "/") +:+ Url.join "," tags in
  _get_model E self url (Some Clan) params.

Definition get_clans := get_clan.

Definition search_clans (self : Client) (params : kwargs) : M (awaitable converted) :=
  _get_model E self (API_SEARCH A) (Some ClanInfo) params.

Definition get_constants (self : Client) (params : kwargs) : M (awaitable converted) :=
  _get_model E self (API_CONSTANTS A) (Some Constants) params.

Definition get_top_clans (self : Client) (country_key : string) (params : kwargs)
    : M (awaitable converted) :=
  let url := (API_TOP A +:+ "/clans/") +:+ country_key in
  _get_model E self url (Some ClanInfo) params.

Definition get_top_players (self : Client) (country_key : string) (params : kwargs)
    : M (awaitable converted) :=
  let url := (API_TOP A +:+ "/players/") +:+ country_key in
  _get_model E self url (Some PlayerInfo) params.

Definition get_popular_clans (self : Client) (params : kwargs) : M (awaitable converted) :=
  let url := API_POPULAR A +:+ "/clans" in
  _get_model E self url (Some Clan) params.

Definition get_popular_players (self : Client) (params : kwargs) : M (awaitable converted) :=
  let url := API_POPULAR A +:+ "/players" in
  _get_model E self url (Some PlayerInfo) params.

Definition get_popular_tournaments (self : Client) (params : kwargs)
    : M (awaitable converted) :=
  let url := API_POPULAR A +:+ "/tournaments" in
  _get_model E self url (Some Tournament) params.

Definition get_auth_stats (self : Client) (params : kwargs) : M (awaitable converted) :=
  let url := API_AUTH A +:+ "/stats" in
  _get_model E self url (Some AuthStats) params.

End Accessors.

(** * More vocabulary *)

(** The [refresh] argument and the query parameters [request] receives
    from the keyword arguments of [_get_model]. *)
Definition refresh_of (kw : kwargs) : arg := default (ABool false) (kw_get "refresh" kw).
Definition query_of (kw : kwargs) : kwargs := kw_remove "refresh" kw.

(** The entry, if any, that the initial lookup of a call serves. *)
Definition served (E : env) (self : Client) (url : string) (kw : kwargs) (w : world)
    : option cached_data :=
  if consults_cache self (refresh_of kw)
  then valid_entry E self w (bucket_of url (query_of kw))
  else None.

(** The world in which the network step of a call starts. *)
Definition before_get (self : Client) (url : string) (kw : kwargs) (w : world) : world :=
  if consults_cache self (refresh_of kw)
  then after_lookup w (bucket_of url (query_of kw))
  else w.

(** A status the classifier has no branch for. *)
Definition unclassified (code : Z) : Prop :=
  ~ (200 <= code < 300) /\ code <> 401 /\ code <> 404 /\ code < 500.

(** A parameter as it enters the key: its name and [str] of its value. *)
Definition as_text (kv : string * arg) : string * string := (fst kv, py_str (snd kv)).

(** Whether a character occurs in a string, and whether all do satisfy a test. *)
Fixpoint occurs (c : ascii) (s : string) : bool :=
  match s with
  | EmptyString => false
  | String a rest => Ascii.eqb c a || occurs c rest
  end.

Fixpoint all_chars (p : ascii -> bool) (s : string) : bool :=
  match s with
  | EmptyString => true
  | String a rest => p a && all_chars p rest
  end.

(** The characters an encoded name or value is made of. *)
Definition encoded_char (c : ascii) : bool :=
  Url.always_safe c || Ascii.eqb c "+" || Ascii.eqb c "%".

(** Reading an encoded string back ([urllib.parse.unquote_plus] on
    well-formed input); it serves to show that the encoding loses nothing. *)
Definition unhex (c : ascii) : N :=
  let n := N_of_ascii c in if (n <? 58)%N then (n - 48)%N else (n - 55)%N.

Fixpoint unquote_plus (s : string) : string :=
  match s with
  | EmptyString => EmptyString
  | String c rest =>
      if Ascii.eqb c "+" then String " " (unquote_plus rest)
      else if Ascii.eqb c "%" then
        match rest with
        | String a (String b rest') =>
            String (ascii_of_N (16 * unhex a + unhex b)) (unquote_plus rest')
        | _ => String c (unquote_plus rest)
        end
      else String c (unquote_plus rest)
  end.

(** One character as [quote_plus] encodes it. *)
Definition quote_char (c : ascii) : string :=
  if Url.always_safe c then String c ""
  else if Ascii.eqb c " " then "+"
  else Url.percent c.

(** One parameter as [urlencode] writes it. *)
Definition item (kv : string * arg) : string :=
  Url.quote_plus (fst kv) +:+ "=" +:+ Url.quote_plus (py_str (snd kv)).

(** What a call may do to the collaborators: GET the URL with the
    client's timeout and headers and the query parameters, look up one of
    the two keys, write to the cache when caching is on. *)
Definition allowed (self : Client) (url : string) (kw : kwargs) (ev : event) : Prop :=
  match ev with
  | HttpGet u t h p => u = url /\ t = timeout self /\ h = headers self /\ p = query_of kw
  | CacheGet k => using_cache self = true /\
                  (k = bucket_of url (query_of kw) \/ k = bucket_of url kw)
  | CacheSet k v => using_cache self = true
  end.

(** Two interactions that are not lookups of one and the same key. *)
Definition apart (e1 e2 : event) : Prop :=
  match e1, e2 with
  | CacheGet k1, CacheGet k2 => k1 <> k2
  | _, _ => True
  end.

(** What a call added to the trace of the world it started in. *)
Definition added (w : world) (r : world) : list event :=
  drop (List.length (trace w)) (trace r).

(** An entry that is 400 seconds old when the clock reads zero. *)
Definition stale_entry : cached_data :=
  {| c_timestamp := -400000000; data := VNum 1 |}.

(** The table of a sample API. *)
Definition sample_api : api :=
  {| API_AUTH := "http://api.cr-api.com/auth";
     API_CLAN := "http://api.cr-api.com/clan";
     API_CONSTANTS := "http://api.cr-api.com/constants";
     API_ENDPOINTS := "http://api.cr-api.com/endpoints";
     API_PLAYER := "http://api.cr-api.com/player";
     API_POPULAR := "http://api.cr-api.com/popular";
     API_SEARCH := "http://api.cr-api.com/clan/search";
     API_TOP := "http://api.cr-api.com/top";
     API_TOURNAMENT := "http://api.cr-api.com/tournaments";
     API_VERSION := "http://api.cr-api.com/version" |}.

(** * Properties *)

(** ** Keys and encoding *)

Example urlencode_keys :
  Url.urlencode [("keys", AStr "name,tag"); ("max", AInt 5)] = "keys=name%2Ctag&max=5".
Proof. vm_compute. reflexivity. Qed.

Example urlencode_space :
  Url.urlencode [("name", AStr "a b"); ("refresh", ABool true)] = "name=a+b&refresh=True".
Proof. vm_compute. reflexivity. Qed.



(** With parameters the two wordings of the key coincide; without, the
    stated one has a question mark the lookup key lacks. *)
Lemma stated_key_with_params (url : string) (params : kwargs) :
  params <> [] -> stated_key url params = lookup_key url params.
Proof. destruct params; [done|reflexivity]. Qed.

Lemma stated_key_without_params (url : string) :
  stated_key url [] = url +:+ "?" /\ lookup_key url [] = url.
Proof. split; reflexivity. Qed.

Lemma kw_remove_absent (k : string) (kw : kwargs) :
  kw_get k kw = None -> kw_remove k kw = kw.
Proof.
  induction kw as [|[k' v] kw IH]; [done|].
  cbn [kw_get kw_remove List.filter fst]. destruct (String.eqb k k'); [done|].
  intros H. cbn [negb]. f_equal. apply IH, H.
Qed.

(** ** Construction: the defaults of [__init__] *)

(** C8: a client built without [cache_expires] has a cache expiry of 300
    seconds, and one built without [timeout] has a request timeout of 10
    seconds. *)
Theorem init_defaults (tok : string) (async : bool) (o : options) :
  (opt_cache_expires o = None -> cache_reset (__init__ tok async o) = 300) /\
  (opt_timeout o = None -> timeout (__init__ tok async o) = 10).
Proof.
  split; intros H; unfold __init__; cbn [cache_reset timeout]; rewrite H; reflexivity.
Qed.

Lemma init_defaults_witness :
  cache_reset (__init__ "token" false no_options) = 300 /\
  timeout (__init__ "token" false no_options) = 10.
Proof.
  destruct (init_defaults "token" false no_options) as [Hc Ht].
  split; [apply Hc | apply Ht]; reflexivity.
Defined.

(** An explicit option is taken as given. *)
Lemma init_explicit (tok : string) (async : bool) (o : options) (n t : Z) :
  opt_cache_expires o = Some n -> opt_timeout o = Some t ->
  cache_reset (__init__ tok async o) = n /\ timeout (__init__ tok async o) = t.
Proof.
  intros Hn Ht. unfold __init__; cbn [cache_reset timeout]. rewrite Hn, Ht. done.
Qed.

(** X25: caching is on exactly when a non-empty cache path was given;
    the empty string leaves it off, like no path at all. *)
Lemma init_using_cache (tok : string) (async : bool) (o : options) :
  using_cache (__init__ tok async o) = true <->
  exists fp, opt_cache_fp o = Some fp /\ fp <> "".
Proof.
  unfold __init__; cbn [using_cache]. unfold truthy_fp.
  destruct (opt_cache_fp o) as [fp|]; split.
  - intros H. exists fp. split; [done|]. intros ->. discriminate.
  - intros (fp' & [= <-] & Hne). apply negb_true_iff. by apply String.eqb_neq.
  - discriminate.
  - intros (fp' & ? & _). discriminate.
Qed.

(** The mode is the one chosen at construction. *)
Lemma init_mode (tok : string) (async : bool) (o : options) :
  is_async (__init__ tok async o) = async.
Proof. reflexivity. Qed.

(** ** Model conversion *)

Section Conversion.

Context (self : Client) (cached : bool) (ts : Z).

Lemma construct_all_map (m : model_class) (l : list pyval) :
  construct_all (Some m) self l cached ts = Return (List.map (built self cached ts m) l).
Proof.
  induction l as [|d l IH]; [reflexivity|].
  cbn [construct_all construct List.map]. rewrite IH. reflexivity.
Qed.

(** Without a model class the first element already fails. *)
Lemma construct_all_None (d : pyval) (l : list pyval) :
  construct_all None self (d :: l) cached ts
  = Raise (TypeError "'NoneType' object is not callable").
Proof. reflexivity. Qed.

Lemma convert_model_list_aux (m : model_class) (l : list pyval) :
  forallb is_str l = false ->
  _convert_model self (VList l) cached ts (Some m)
  = Return (OList (List.map (built self cached ts m) l)).
Proof. intros Hl. cbn [_convert_model]. rewrite Hl, construct_all_map. reflexivity. Qed.


(** One model per element, in order. *)
Lemma convert_model_list_length (m : model_class) (l : list pyval) :
  forallb is_str l = false ->
  exists ms, _convert_model self (VList l) cached ts (Some m) = Return (OList ms) /\
             List.length ms = List.length l /\
             Forall (fun i => i_client i = self /\ i_cached i = cached /\ i_ts i = ts) ms.
Proof.
  intros Hl. exists (List.map (built self cached ts m) l). split; [|split].
  - by apply (convert_model_list_aux m).
  - apply length_map.
  - apply Forall_forall. intros i Hi. apply list_elem_of_In, in_map_iff in Hi as (d & <- & _).
    done.
Qed.

(** The string and string-list cases do not depend on the model at all
    ([get_version] and [get_endpoints] pass none). *)
Lemma convert_model_no_model (model : option model_class) :
  (forall s, _convert_model self (VStr s) cached ts model = Return (OStr s)) /\
  (forall l, forallb is_str l = true ->
     _convert_model self (VList l) cached ts model = Return (ORlist self l cached ts)).
Proof.
  split; [reflexivity|]. intros l Hl. cbn [_convert_model]. rewrite Hl. reflexivity.
Qed.

(** C10: the empty list is a list of strings, hence wrapped in [rlist]. *)
Theorem convert_model_empty_list (model : option model_class) :
  _convert_model self (VList []) cached ts model = Return (ORlist self [] cached ts).
Proof. reflexivity. Qed.

End Conversion.


(** ** The response classifier *)

Ltac mrun :=
  unfold complete, timeout_to_NotResponding, try_except, bind, ret, raise, lift,
    status_of, await, unpack3, _wrap_coro in *;
  cbn beta iota in *.

Section Classifier.

Context (E : env) (self : Client).

Lemma raise_for_status_no_code (resp : response) (text : string) (w : world) :
  code_of resp = None ->
  _raise_for_status E self resp text w = (Raise (AttributeError "status_code"), w).
Proof. intros H. unfold _raise_for_status, status_of. rewrite H. reflexivity. Qed.

(** The classifier on a response whose status code is [code]. *)
Lemma raise_for_status_code (resp : response) (text : string) (w : world) (code : Z) :
  code_of resp = Some code ->
  _raise_for_status E self resp text w =
    if (code <? 300) && (200 <=? code) then
      (_ <- (if using_cache self then
               t <- utcnow E ;;
               cache_set (resp_url resp)
                 {| c_timestamp := timestamp t; data := parse_body E text |}
             else ret tt) ;;
       t <- utcnow E ;;
       ret (RTuple (parse_body E text) false t)) w
    else if code =? 401 then (Raise (Unauthorized resp (parse_body E text)), w)
    else if code =? 404 then (Raise (NotFoundError resp (parse_body E text)), w)
    else if 500 <=? code then (Raise (ServerError resp (parse_body E text)), w)
    else (Return RNone, w).
Proof.
  intros H. unfold _raise_for_status, status_of. rewrite H. mrun.
  repeat case_match; reflexivity.
Qed.

(** C4: status 401 raises [Unauthorized], 404 raises [NotFoundError] and
    a status of 500 or more raises [ServerError], each with the response
    and the parsed-or-raw body, and each leaving the world as it was; and
    whenever the classifier changes the world at all (so in particular
    the cache), the status was in [200, 300). *)
Theorem raise_for_status_errors (resp : response) (text : string) (w : world) :
  (code_of resp = Some 401 ->
     _raise_for_status E self resp text w
     = (Raise (Unauthorized resp (parse_body E text)), w)) /\
  (code_of resp = Some 404 ->
     _raise_for_status E self resp text w
     = (Raise (NotFoundError resp (parse_body E text)), w)) /\
  (forall code, code_of resp = Some code -> 500 <= code ->
     _raise_for_status E self resp text w
     = (Raise (ServerError resp (parse_body E text)), w)) /\
  (snd (_raise_for_status E self resp text w) <> w ->
     exists code, code_of resp = Some code /\ 200 <= code < 300).
Proof.
  repeat split.
  - intros H. rewrite (raise_for_status_code _ _ _ _ H). reflexivity.
  - intros H. rewrite (raise_for_status_code _ _ _ _ H). reflexivity.
  - intros code H Hge. rewrite (raise_for_status_code _ _ _ _ H).
    replace (code <? 300) with false by (symmetry; apply Z.ltb_ge; lia).
    replace (code =? 401) with false by (symmetry; apply Z.eqb_neq; lia).
    replace (code =? 404) with false by (symmetry; apply Z.eqb_neq; lia).
    replace (500 <=? code) with true by (symmetry; apply Z.leb_le; lia).
    reflexivity.
  - intros Hw. destruct (code_of resp) as [code|] eqn:Hc.
    + exists code. split; [reflexivity|].
      rewrite (raise_for_status_code _ _ _ _ Hc) in Hw.
      destruct ((code <? 300) && (200 <=? code)) eqn:Hok.
      * apply andb_true_iff in Hok as [H1 H2].
        apply Z.ltb_lt in H1. apply Z.leb_le in H2. lia.
      * exfalso. apply Hw. repeat case_match; reflexivity.
    + exfalso. apply Hw. rewrite raise_for_status_no_code by done. reflexivity.
Qed.

(** A parsed body is carried as parsed, an unparsable one as the text. *)
Lemma parse_body_cases (text : string) :
  (forall d, json_loads E text = Some d -> parse_body E text = d) /\
  (json_loads E text = None -> parse_body E text = VStr text).
Proof. unfold parse_body. split; [intros d ->|intros ->]; reflexivity. Qed.

(** On success the payload is tagged network-sourced, and with caching
    on it is stored under the resolved URL of the response. *)
Lemma raise_for_status_success (resp : response) (text : string) (w : world) (code : Z) :
  code_of resp = Some code -> 200 <= code < 300 ->
  _raise_for_status E self resp text w =
    if using_cache self then
      (Return (RTuple (parse_body E text) false (clock E (S (clock_reads w)))),
       {| cache := <[resp_url resp :=
                       {| c_timestamp := clock E (clock_reads w);
                          data := parse_body E text |}]> (cache w);
          clock_reads := S (S (clock_reads w));
          http_calls := http_calls w;
          trace := trace w ++ [CacheSet (resp_url resp)
                                 {| c_timestamp := clock E (clock_reads w);
                                    data := parse_body E text |}] |})
    else
      (Return (RTuple (parse_body E text) false (clock E (clock_reads w))),
       {| cache := cache w; clock_reads := S (clock_reads w);
          http_calls := http_calls w; trace := trace w |}).
Proof.
  intros H Hr. rewrite (raise_for_status_code _ _ _ _ H).
  replace (code <? 300) with true by (symmetry; apply Z.ltb_lt; lia).
  replace (200 <=? code) with true by (symmetry; apply Z.leb_le; lia).
  cbn [andb]. destruct (using_cache self); reflexivity.
Qed.

(** Any other status falls through: no exception, the result is [None]
    and nothing was touched. *)
Lemma raise_for_status_other (resp : response) (text : string) (w : world) (code : Z) :
  code_of resp = Some code ->
  ~ (200 <= code < 300) -> code <> 401 -> code <> 404 -> code < 500 ->
  _raise_for_status E self resp text w = (Return RNone, w).
Proof.
  intros H Hr H1 H4 H5. rewrite (raise_for_status_code _ _ _ _ H).
  replace ((code <? 300) && (200 <=? code)) with false.
  2:{ symmetry. apply andb_false_iff.
      destruct (Z.ltb_spec code 300); [right; apply Z.leb_gt; lia | by left]. }
  replace (code =? 401) with false by (symmetry; apply Z.eqb_neq; lia).
  replace (code =? 404) with false by (symmetry; apply Z.eqb_neq; lia).
  replace (500 <=? code) with false by (symmetry; apply Z.leb_gt; lia).
  reflexivity.
Qed.

(** Whatever the classifier does, it raises or returns [None] only with
    the world untouched. *)
Lemma raise_for_status_quiet (resp : response) (text : string) (w w' : world) :
  (forall e, _raise_for_status E self resp text w = (Raise e, w') -> w' = w) /\
  (_raise_for_status E self resp text w = (Return RNone, w') -> w' = w).
Proof.
  destruct (code_of resp) as [code|] eqn:Hc.
  2:{ rewrite raise_for_status_no_code by done. split; [intros e [= _ <-]; done|discriminate]. }
  rewrite (raise_for_status_code _ _ _ _ Hc).
  destruct ((code <? 300) && (200 <=? code)).
  - unfold bind, ret, utcnow, cache_set. destruct (using_cache self); cbn;
      split; try (intros e); discriminate.
  - split; [intros e|]; repeat case_match; intros [= <-]; try done; by intros.
Qed.

(** Exceptions of the classifier pass the timeout handlers untouched. *)
Lemma raise_for_status_no_timeout (r : response) (text : string) (w w' : world) (e : error) :
  _raise_for_status E self r text w = (Raise e, w') ->
  is_requests_timeout e = false /\ is_asyncio_timeout e = false.
Proof.
  unfold _raise_for_status, status_of, utcnow, cache_set. mrun.
  destruct (code_of r) as [code|]; cbn; [|intros [= <- _]; done].
  repeat (case_match; cbn; try discriminate); intros [= <- _]; done.
Qed.

(** What the classifier may add to the trace: at most the cache write. *)
Lemma raise_for_status_trace (r : response) (text : string) (w : world) :
  exists rest,
    trace (snd (_raise_for_status E self r text w)) = trace w ++ rest /\
    forallb is_cache_set rest = true /\
    http_calls (snd (_raise_for_status E self r text w)) = http_calls w.
Proof.
  destruct (code_of r) as [code|] eqn:Hc.
  2:{ rewrite raise_for_status_no_code by done. exists []. by rewrite app_nil_r. }
  rewrite (raise_for_status_code _ _ _ _ Hc).
  destruct ((code <? 300) && (200 <=? code)).
  - unfold bind, ret, utcnow, cache_set. destruct (using_cache self); cbn.
    + eexists [_]. done.
    + exists []. by rewrite app_nil_r.
  - exists []. rewrite app_nil_r. repeat case_match; done.
Qed.

End Classifier.

Lemma raise_for_status_errors_witness :
  _raise_for_status (always 401 "denied") blocking_client
      (requests_response 401 clan_url "denied") "denied" empty_world
    = (Raise (Unauthorized (requests_response 401 clan_url "denied") (VStr "denied")),
       empty_world) /\
  _raise_for_status (always_aio 404 "42") deferred_client
      (aiohttp_response 404 clan_url "42") "42" empty_world
    = (Raise (NotFoundError (aiohttp_response 404 clan_url "42") (VNum 42)), empty_world) /\
  _raise_for_status (always 503 "down") blocking_client
      (requests_response 503 clan_url "down") "down" empty_world
    = (Raise (ServerError (requests_response 503 clan_url "down") (VStr "down")),
       empty_world) /\
  (exists code, code_of (requests_response 204 clan_url "[]") = Some code
                /\ 200 <= code < 300).
Proof.
  split; [|split; [|split]].
  - apply (raise_for_status_errors (always 401 "denied") blocking_client
             (requests_response 401 clan_url "denied") "denied" empty_world).
    reflexivity.
  - apply (raise_for_status_errors (always_aio 404 "42") deferred_client
             (aiohttp_response 404 clan_url "42") "42" empty_world).
    reflexivity.
  - apply (raise_for_status_errors (always 503 "down") blocking_client
             (requests_response 503 clan_url "down") "down" empty_world
             ) with (code := 503); [reflexivity | lia].
  - apply (raise_for_status_errors (always 204 "[]") blocking_client
             (requests_response 204 clan_url "[]") "[]" empty_world).
    vm_compute. intros H. discriminate H.
Defined.

(** ** Cache resolution *)

Section Resolution.

Context (E : env) (self : Client).

Lemma resolve_cache_spec (url : string) (params : kwargs) (w : world) :
  _resolve_cache E self url params w =
    (Return (match valid_entry E self w (bucket_of url params) with
             | Some cd => if is_async self then Coroutine (ret (hit cd)) else Value (hit cd)
             | None => Value RNone
             end),
     after_lookup w (bucket_of url params)).
Proof.
  unfold _resolve_cache, valid_entry, after_lookup, cache_get, utcnow, hit, fromts.
  mrun. destruct (cache w !! bucket_of url params) as [cd|]; [|reflexivity].
  cbn. destruct (_ <? _); [destruct (is_async self)|]; reflexivity.
Qed.

Lemma valid_entry_Some (w : world) (key : string) (cd : cached_data) :
  valid_entry E self w key = Some cd <->
  cache w !! key = Some cd /\
  clock E (clock_reads w) - c_timestamp cd < cache_reset self * 1000000.
Proof.
  unfold valid_entry. destruct (cache w !! key) as [cd'|];
    [|split; [discriminate | intros [? _]; discriminate]].
  destruct (Z.ltb_spec (clock E (clock_reads w) - c_timestamp cd')
              (cache_reset self * 1000000)); split.
  - intros [= ->]. done.
  - intros [[= ->] _]. done.
  - discriminate.
  - intros [[= ->] ?]. lia.
Qed.

(** An entry as old as the expiry, or older, is not served. *)
Lemma valid_entry_expired (w : world) (key : string) (cd : cached_data) :
  cache w !! key = Some cd ->
  cache_reset self * 1000000 <= clock E (clock_reads w) - c_timestamp cd ->
  valid_entry E self w key = None.
Proof.
  intros Hin Hage. unfold valid_entry. rewrite Hin.
  destruct (Z.ltb_spec (clock E (clock_reads w) - c_timestamp cd)
              (cache_reset self * 1000000)); [lia|reflexivity].
Qed.

(** A lookup changes neither the cache nor the number of GETs. *)
Lemma after_lookup_same (w : world) (key : string) :
  cache (after_lookup w key) = cache w /\
  http_calls (after_lookup w key) = http_calls w /\
  (clock_reads w <= clock_reads (after_lookup w key))%nat.
Proof. unfold after_lookup. cbn. repeat split. destruct (cache w !! key); lia. Qed.

End Resolution.

(** ** The request step *)

Section Request.

Context (E : env) (self : Client).

Lemma arequest_fetch (url : string) (params : kwargs) (w : world) :
  _arequest E self url params w = fetch E self url params w.
Proof.
  unfold _arequest, fetch, session_get, after_get. mrun.
  destruct (server E (http_calls w) url params) as [r| |msg]; cbn; try reflexivity.
  destruct (_raise_for_status E self r (resp_text r) _) as [[a|e] w'] eqn:Hr; [reflexivity|].
  apply raise_for_status_no_timeout in Hr as [_ ->]. reflexivity.
Qed.

(** The part of [request] after the cache lookup, in either mode. *)
Lemma request_fetch (url : string) (params : kwargs) (w : world) :
  complete (if is_async self
            then ret (Coroutine (_arequest E self url params))
            else timeout_to_NotResponding is_requests_timeout
                   (resp <- session_get E self RequestsTimeout url params ;;
                    r <- _raise_for_status E self resp (resp_text resp) ;;
                    ret (Value r))) w
  = fetch E self url params w.
Proof.
  destruct (is_async self).
  - mrun. apply arequest_fetch.
  - unfold fetch, session_get, after_get. mrun.
    destruct (server E (http_calls w) url params) as [r| |msg]; cbn; try reflexivity.
    destruct (_raise_for_status E self r (resp_text r) _) as [[a|e] w'] eqn:Hr;
      [reflexivity|].
    apply raise_for_status_no_timeout in Hr as [-> _]. reflexivity.
Qed.

(** [request], driven to completion, in either mode. *)
Lemma request_complete (url : string) (refresh : arg) (params : kwargs) (w : world) :
  complete (request E self url refresh params) w =
    if consults_cache self refresh then
      match valid_entry E self w (bucket_of url params) with
      | Some cd => (Return (hit cd), after_lookup w (bucket_of url params))
      | None => fetch E self url params (after_lookup w (bucket_of url params))
      end
    else fetch E self url params w.
Proof.
  unfold request, consults_cache.
  destruct (using_cache self && is_False refresh); [|apply request_fetch].
  unfold complete at 1, bind at 1, bind at 1.
  rewrite resolve_cache_spec.
  destruct (valid_entry E self w (bucket_of url params)) as [cd|].
  - destruct (is_async self); reflexivity.
  - cbn [is_not_None]. apply request_fetch.
Qed.

(** In blocking mode [request] returns plain values, in deferred mode a
    coroutine and never an exception of its own. *)
Lemma request_shape (url : string) (refresh : arg) (params : kwargs) (w : world) :
  if is_async self then
    exists body w0, request E self url refresh params w = (Return (Coroutine body), w0)
  else
    (exists r w0, request E self url refresh params w = (Return (Value r), w0)) \/
    (exists e w0, request E self url refresh params w = (Raise e, w0)).
Proof.
  unfold request.
  set (m := timeout_to_NotResponding is_requests_timeout _).
  assert (Hsync : forall w0,
    (exists r w1, m w0 = (Return (Value r), w1)) \/ (exists e w1, m w0 = (Raise e, w1))).
  { intros w0. subst m. mrun.
    destruct (session_get E self RequestsTimeout url params w0) as [[r|e] w1];
      [|destruct (is_requests_timeout e); eauto].
    destruct (_raise_for_status E self r (resp_text r) w1) as [[a|e] w2]; [eauto|].
    destruct (is_requests_timeout e); eauto. }
  clearbody m.
  destruct (using_cache self && is_False refresh).
  - unfold bind. rewrite resolve_cache_spec.
    destruct (valid_entry E self w (bucket_of url params)) as [cd|];
      destruct (is_async self) eqn:Ha; cbn [is_not_None]; unfold ret; eauto.
  - destruct (is_async self) eqn:Ha; unfold ret; eauto.
Qed.

Lemma fetch_response (url : string) (params : kwargs) (w : world) (r : response) :
  server E (http_calls w) url params = HResponse r ->
  fetch E self url params w
  = _raise_for_status E self r (resp_text r) (after_get self w url params).
Proof. intros H. unfold fetch. rewrite H. reflexivity. Qed.

(** A timeout of the session surfaces from [request] as [NotResponding]. *)
Lemma fetch_timeout (url : string) (params : kwargs) (w : world) :
  server E (http_calls w) url params = HTimeout ->
  fetch E self url params w = (Raise NotResponding, after_get self w url params).
Proof. intros H. unfold fetch. rewrite H. reflexivity. Qed.

(** An error status surfaces from the network step as one of the
    documented exceptions, the cache being left alone. *)
Lemma fetch_error_status (url : string) (params : kwargs) (w : world)
    (r : response) (code : Z) :
  server E (http_calls w) url params = HResponse r ->
  code_of r = Some code ->
  code = 401 \/ code = 404 \/ 500 <= code ->
  exists e, fetch E self url params w = (Raise e, after_get self w url params) /\
            in_taxonomy e = true /\
            cache (after_get self w url params) = cache w.
Proof.
  intros Hs Hc Hcode. rewrite (fetch_response _ _ _ _ Hs).
  rewrite (raise_for_status_code _ _ _ _ _ _ Hc).
  replace ((code <? 300) && (200 <=? code)) with false
    by (symmetry; apply andb_false_iff; left; apply Z.ltb_ge; lia).
  destruct (Z.eqb_spec code 401); [eauto|]. destruct (Z.eqb_spec code 404); [eauto|].
  replace (500 <=? code) with true; [eauto|].
  symmetry. apply Z.leb_le. lia.
Qed.

(** A fetch that raises, or yields [None], has only asked the session. *)
Lemma fetch_quiet (url : string) (params : kwargs) (w w' : world) :
  (forall e, fetch E self url params w = (Raise e, w') -> w' = after_get self w url params) /\
  (fetch E self url params w = (Return RNone, w') -> w' = after_get self w url params).
Proof.
  unfold fetch. destruct (server E (http_calls w) url params) as [r| |msg].
  - apply raise_for_status_quiet.
  - split; [intros e [= _ <-]; done | discriminate].
  - split; [intros e [= _ <-]; done | discriminate].
Qed.

Lemma fetch_trace (url : string) (params : kwargs) (w : world) :
  exists rest,
    trace (snd (fetch E self url params w))
      = trace w ++ HttpGet url (timeout self) (headers self) params :: rest /\
    forallb is_cache_set rest = true /\
    http_calls (snd (fetch E self url params w)) = S (http_calls w).
Proof.
  unfold fetch.
  destruct (server E (http_calls w) url params) as [r| |msg].
  - destruct (raise_for_status_trace E self r (resp_text r) (after_get self w url params))
      as (rest & Ht & Hs & Hh).
    exists rest. rewrite Ht, Hh. cbn. by rewrite <- app_assoc.
  - exists []. done.
  - exists []. done.
Qed.

End Request.

(** ** Fetch and decode: [_get_model] *)

Section GetModel.

Context (E : env) (self : Client).

Lemma fallback_recover (url : string) (params : kwargs) (e : error) (w : world) :
  fallback E self url params e w = recover E self url params e w.
Proof.
  unfold fallback, recover. destruct (using_cache self); [|reflexivity].
  unfold bind at 1, bind at 1. rewrite resolve_cache_spec.
  destruct (valid_entry E self w (bucket_of url params)) as [cd|]; [|reflexivity].
  destruct (is_async self); reflexivity.
Qed.

Lemma attempt_complete (url : string) (params : kwargs) (w : world) :
  attempt E self url params w =
    match complete (request_kw E self url params) w with
    | (Return (RTuple d c t), w1) => (Return (d, c, t), w1)
    | (Return RNone, w1) => (Raise unpack_None, w1)
    | (Raise e, w1) => (Raise e, w1)
    end.
Proof.
  unfold attempt, request_kw.
  pose proof (request_shape E self url (default (ABool false) (kw_get "refresh" params))
                (kw_remove "refresh" params) w) as Hs.
  destruct (is_async self).
  - destruct Hs as (body & w0 & Hs). unfold complete, bind. rewrite Hs. cbn [await].
    destruct (body w0) as [[[|d c t]|e] w1]; reflexivity.
  - destruct Hs as [(r & w0 & Hs)|(e & w0 & Hs)]; unfold complete, bind; rewrite Hs;
      [destruct r|]; reflexivity.
Qed.

Lemma triple_spec (url : string) (params : kwargs) (w : world) :
  triple E self url params w =
    match complete (request_kw E self url params) w with
    | (Return (RTuple d cached t), w1) => (Return (d, cached, t), w1)
    | (Return RNone, w1) => recover E self url params unpack_None w1
    | (Raise e, w1) => recover E self url params e w1
    end.
Proof.
  unfold triple, try_except. rewrite attempt_complete.
  destruct (complete (request_kw E self url params) w) as [[[|d cached t]|e] w1];
    try reflexivity; apply fallback_recover.
Qed.

(** [_get_model], driven to completion, in either mode: the triple is
    obtained, then converted. *)
Lemma get_model_triple (url : string) (model : option model_class)
    (params : kwargs) (w : world) :
  complete (_get_model E self url model params) w =
    match triple E self url params w with
    | (Return (d, cached, t), w1) => (_convert_model self d cached t model, w1)
    | (Raise e, w1) => (Raise e, w1)
    end.
Proof.
  pose proof (attempt_complete url params w) as Ha. unfold attempt in Ha.
  rewrite triple_spec. unfold _get_model, _aget_model.
  destruct (is_async self) eqn:Hm.
  - unfold complete at 1, bind at 1, ret at 1. cbn iota beta.
    unfold bind at 1, try_except. rewrite Ha.
    destruct (complete (request_kw E self url params) w) as [[[|d c t]|e] w1];
      rewrite ?fallback_recover;
      try destruct (recover E self url params _ w1) as [[[[d' c'] t']|e'] w2];
      reflexivity.
  - unfold complete at 1, bind at 1, bind at 1, try_except. rewrite Ha.
    destruct (complete (request_kw E self url params) w) as [[[|d c t]|e] w1];
      rewrite ?fallback_recover;
      try destruct (recover E self url params _ w1) as [[[[d' c'] t']|e'] w2];
      unfold lift, bind, ret; try reflexivity;
      destruct (_convert_model self _ _ _ model); reflexivity.
Qed.

(** The same, spelled out on the completed request: a triple is
    converted; [None] or an exception enters the [except] block. *)
Lemma get_model_complete (url : string) (model : option model_class)
    (params : kwargs) (w : world) :
  complete (_get_model E self url model params) w =
    let finish (r : outcome (pyval * bool * Z) * world) :=
      match r with
      | (Return (d, c, t), w2) => (_convert_model self d c t model, w2)
      | (Raise e, w2) => (Raise e, w2)
      end in
    match complete (request_kw E self url params) w with
    | (Return (RTuple d c t), w1) => (_convert_model self d c t model, w1)
    | (Return RNone, w1) => finish (recover E self url params unpack_None w1)
    | (Raise e, w1) => finish (recover E self url params e w1)
    end.
Proof.
  rewrite get_model_triple, triple_spec. cbv zeta.
  destruct (complete (request_kw E self url params) w) as [[[|d c t]|e] w1]; reflexivity.
Qed.

End GetModel.

(** ** Serving from the cache, and forcing a refresh *)

Section CachePolicy.

Context (E : env) (self : Client).


(** The same at the level of [_get_model]: the model is built from the
    stored payload, tagged cache-sourced. *)
Lemma get_model_fresh_hit (url : string) (model : option model_class)
    (params : kwargs) (w : world) (cd : cached_data) :
  using_cache self = true ->
  kw_get "refresh" params = None ->
  valid_entry E self w (bucket_of url params) = Some cd ->
  complete (_get_model E self url model params) w =
    (_convert_model self (data cd) true (c_timestamp cd) model,
     after_lookup w (bucket_of url params)).
Proof.
  intros Hc Hr Hv. rewrite get_model_complete. unfold request_kw.
  rewrite Hr, (kw_remove_absent _ _ Hr). cbn [default].
  rewrite request_complete. unfold consults_cache. rewrite Hc, Hv. reflexivity.
Qed.

(** An absent or expired entry sends the request to the network. *)
Lemma request_miss (url : string) (params : kwargs) (w : world) :
  using_cache self = true ->
  valid_entry E self w (bucket_of url params) = None ->
  complete (request E self url (ABool false) params) w
  = fetch E self url params (after_lookup w (bucket_of url params)).
Proof.
  intros Hc Hv. rewrite request_complete. unfold consults_cache.
  rewrite Hc, Hv. reflexivity.
Qed.

(** C6: with [refresh=True] the request (in either mode, driven to
    completion) goes straight to the session, whatever the cache holds
    and whether or not caching is on: the first interaction is the GET,
    exactly one GET is made, and no cache lookup takes place. *)
Theorem request_forced_refresh (url : string) (params : kwargs) (w : world) :
  let r := complete (request E self url (ABool true) params) w in
  r = fetch E self url params w /\
  http_calls (snd r) = S (http_calls w) /\
  exists rest,
    trace (snd r) = trace w ++ HttpGet url (timeout self) (headers self) params :: rest /\
    forallb (fun ev => negb (is_cache_get ev)) rest = true.
Proof.
  intros r. subst r. rewrite request_complete. unfold consults_cache.
  rewrite andb_false_r.
  destruct (fetch_trace E self url params w) as (rest & Ht & Hs & Hh).
  repeat split; [done|]. exists rest. split; [done|].
  clear Ht. induction rest as [|ev rest IH]; [done|].
  cbn in Hs |- *. apply andb_true_iff in Hs as [Hev Hs].
  rewrite (IH Hs), andb_true_r. by destruct ev.
Qed.

(** The flag reaches [request] from the keyword arguments of
    [_get_model], and is not sent to the server. *)
Lemma request_kw_forced (url : string) (params : kwargs) (w : world) :
  kw_get "refresh" params = Some (ABool true) ->
  complete (request_kw E self url params) w
  = fetch E self url (kw_remove "refresh" params) w.
Proof.
  intros H. unfold request_kw. rewrite H. cbn [default].
  rewrite request_complete. unfold consults_cache. by rewrite andb_false_r.
Qed.

(** X26: only the object [False] keeps the initial lookup ([refresh is
    False]): any other value, also a falsy one such as [0] or [None],
    sends the request straight to the server. *)
Lemma request_refresh_identity (url : string) (refresh : arg) (params : kwargs) (w : world) :
  is_False refresh = false ->
  complete (request E self url refresh params) w = fetch E self url params w.
Proof.
  intros H. rewrite request_complete. unfold consults_cache. by rewrite H, andb_false_r.
Qed.

(** Without the flag a caching client does consult the cache first. *)
Lemma request_consults_cache (url : string) (params : kwargs) (w : world) :
  using_cache self = true ->
  exists rest,
    trace (snd (complete (request E self url (ABool false) params) w))
      = trace w ++ CacheGet (bucket_of url params) :: rest.
Proof.
  intros Hc. rewrite request_complete. unfold consults_cache. rewrite Hc. cbn [andb is_False].
  destruct (valid_entry E self w (bucket_of url params)).
  - by exists [].
  - destruct (fetch_trace E self url params (after_lookup w (bucket_of url params)))
      as (rest & Ht & _). rewrite Ht. cbn. rewrite <- app_assoc. eauto.
Qed.

End CachePolicy.



(** ** The [except] block: falling back to the cache *)

Section Fallback.

Context (E : env) (self : Client).

(** X17: in blocking mode, when the request fails and the cache holds a
    valid entry under the key built from all keyword arguments, the call
    succeeds with that entry, tagged cache-sourced. *)
Lemma blocking_failure_falls_back (url : string) (model : option model_class)
    (params : kwargs) (w w1 : world) (e : error) (cd : cached_data) :
  is_async self = false -> using_cache self = true ->
  complete (request_kw E self url params) w = (Raise e, w1) ->
  valid_entry E self w1 (bucket_of url params) = Some cd ->
  complete (_get_model E self url model params) w =
    (_convert_model self (data cd) true (c_timestamp cd) model,
     after_lookup w1 (bucket_of url params)).
Proof.
  intros Hm Hc Hreq Hv. rewrite get_model_complete, Hreq. cbv zeta.
  unfold recover. rewrite Hc, Hv, Hm. reflexivity.
Qed.

(** X15: in either mode, when the request fails and there is nothing
    valid to fall back on, the original exception reaches the caller. *)
Lemma failure_propagates (url : string) (model : option model_class)
    (params : kwargs) (w w1 : world) (e : error) :
  complete (request_kw E self url params) w = (Raise e, w1) ->
  using_cache self = false \/ valid_entry E self w1 (bucket_of url params) = None ->
  fst (complete (_get_model E self url model params) w) = Raise e.
Proof.
  intros Hreq Hno. rewrite get_model_complete, Hreq. cbv zeta.
  unfold recover. destruct (using_cache self); [|reflexivity].
  destruct Hno as [?| ->]; [discriminate|reflexivity].
Qed.

(** X18: in deferred mode, when the request fails and the cache does
    hold a valid entry, [_resolve_cache] hands back a coroutine, the
    unpacking of which fails: the caller gets neither the entry nor the
    original exception. *)
Lemma deferred_failure_raises_TypeError (url : string) (model : option model_class)
    (params : kwargs) (w w1 : world) (e : error) (cd : cached_data) :
  is_async self = true -> using_cache self = true ->
  complete (request_kw E self url params) w = (Raise e, w1) ->
  valid_entry E self w1 (bucket_of url params) = Some cd ->
  complete (_get_model E self url model params) w =
    (Raise unpack_coroutine, after_lookup w1 (bucket_of url params)).
Proof.
  intros Hm Hc Hreq Hv. rewrite get_model_complete, Hreq. cbv zeta.
  unfold recover. rewrite Hc, Hv, Hm. reflexivity.
Qed.

(** A status outside [200, 300) that is not 401, 404 or 5xx: the request
    completes with [None], and unpacking it is a [TypeError], which is
    handled like any other exception. *)
Lemma unclassified_status (url : string) (model : option model_class)
    (params : kwargs) (w w1 : world) :
  complete (request_kw E self url params) w = (Return RNone, w1) ->
  complete (_get_model E self url model params) w =
    if using_cache self then
      match valid_entry E self w1 (bucket_of url params) with
      | Some cd =>
          if is_async self
          then (Raise unpack_coroutine, after_lookup w1 (bucket_of url params))
          else (_convert_model self (data cd) true (c_timestamp cd) model,
                after_lookup w1 (bucket_of url params))
      | None => (Raise unpack_None, after_lookup w1 (bucket_of url params))
      end
    else (Raise unpack_None, w1).
Proof.
  intros Hreq. rewrite get_model_complete, Hreq. cbv zeta. unfold recover.
  destruct (using_cache self); [|reflexivity].
  destruct (valid_entry E self w1 (bucket_of url params)); [|reflexivity].
  destruct (is_async self); reflexivity.
Qed.

(** X14: with a clock that does not run backwards and no [refresh] among
    the keyword arguments, the [except] block never finds a valid entry:
    the lookup it repeats is the one [request] has just made in vain. *)
Lemma fallback_needs_refresh (url : string) (params : kwargs) (w w1 : world)
    (o : outcome pyret) :
  monotone E -> using_cache self = true -> kw_get "refresh" params = None ->
  complete (request_kw E self url params) w = (o, w1) ->
  (forall d c t, o <> Return (RTuple d c t)) ->
  valid_entry E self w1 (bucket_of url params) = None.
Proof.
  intros Hmono Hc Hr Hreq Hfail. unfold request_kw in Hreq.
  rewrite Hr, (kw_remove_absent _ _ Hr) in Hreq. cbn [default] in Hreq.
  rewrite request_complete in Hreq. unfold consults_cache in Hreq.
  rewrite Hc in Hreq. cbn [andb is_False] in Hreq.
  destruct (valid_entry E self w (bucket_of url params)) as [cd|] eqn:Hv.
  { injection Hreq as <- _. exfalso. eapply Hfail. reflexivity. }
  assert (Hw1 : w1 = after_get self (after_lookup w (bucket_of url params)) url params).
  { destruct (fetch_quiet E self url params (after_lookup w (bucket_of url params)) w1)
      as [Hraise Hnone].
    destruct o as [[|d c t]|e]; [by apply Hnone | | by apply (Hraise e)].
    exfalso. eapply Hfail. reflexivity. }
  subst w1. unfold valid_entry in Hv |- *. cbn [cache clock_reads after_get after_lookup].
  destruct (cache w !! bucket_of url params) as [cd|]; [|reflexivity].
  destruct (Z.ltb_spec (clock E (clock_reads w) - c_timestamp cd)
              (cache_reset self * 1000000)); [discriminate|].
  pose proof (Hmono (clock_reads w) (S (clock_reads w)) ltac:(lia)).
  destruct (Z.ltb_spec (clock E (S (clock_reads w)) - c_timestamp cd)
              (cache_reset self * 1000000)); [lia|reflexivity].
Qed.

End Fallback.

(** ** Blocking against deferred mode *)

Section Modes.

Context (E : env) (c : Client).

(** The request step does the same in both modes. *)
Lemma request_modes_agree (url : string) (refresh : arg) (params : kwargs) (w : world) :
  complete (request E (set_async true c) url refresh params) w
  = complete (request E (set_async false c) url refresh params) w.
Proof. rewrite !request_complete. reflexivity. Qed.

(** The two modes hand the same triple (or exception) to the caller in
    the same final world, with one exception: where the blocking client
    recovers from a failed request through the cache, the deferred
    client raises a [TypeError]. *)
Lemma modes_agree_or_fallback (url : string) (params : kwargs) (w : world) :
  triple E (set_async true c) url params w = triple E (set_async false c) url params w \/
  exists cd w1,
    using_cache c = true /\
    valid_entry E c w1 (bucket_of url params) = Some cd /\
    triple E (set_async false c) url params w
      = (Return (data cd, true, c_timestamp cd), after_lookup w1 (bucket_of url params)) /\
    triple E (set_async true c) url params w
      = (Raise unpack_coroutine, after_lookup w1 (bucket_of url params)).
Proof.
  rewrite !triple_spec. unfold request_kw. rewrite request_modes_agree.
  destruct (complete (request E (set_async false c) url _ _) w) as [[[|d cached t]|e] w1];
    [..|by left| ]; unfold recover; cbn [using_cache is_async set_async];
    (destruct (using_cache c) eqn:Hc; [|by left]);
    change (valid_entry E (set_async true c)) with (valid_entry E c);
    change (valid_entry E (set_async false c)) with (valid_entry E c);
    (destruct (valid_entry E c w1 (bucket_of url params)) as [cd|] eqn:Hv; [|by left]);
    right; exists cd, w1; done.
Qed.

(** In particular the modes agree whenever the request itself succeeds,
    and whenever caching is off. *)
Lemma modes_agree_without_cache (url : string) (params : kwargs) (w : world) :
  using_cache c = false ->
  triple E (set_async true c) url params w = triple E (set_async false c) url params w.
Proof.
  intros Hc. destruct (modes_agree_or_fallback url params w) as [H|(cd & w1 & Hu & _)];
    [exact H | congruence].
Qed.

End Modes.

(** ** Two identical requests *)

Section Repeat.

Context (E : env) (self : Client).


(** X21: when the resolved URL is any other string, the entry the first
    request wrote is not the one the second looks up: with nothing under
    the lookup key before, the second request goes to the network again. *)
Lemma second_request_misses (url : string) (params : kwargs) (w : world)
    (r : response) (code : Z) :
  using_cache self = true ->
  cache w !! bucket_of url params = None ->
  server E (http_calls w) url params = HResponse r ->
  code_of r = Some code -> 200 <= code < 300 ->
  resp_url r <> bucket_of url params ->
  let first := complete (request E self url (ABool false) params) w in
  http_calls (snd (complete (request E self url (ABool false) params) (snd first)))
    = S (S (http_calls w)).
Proof.
  intros Hc Hin Hs Hcode Hok Hurl first.
  assert (Hv : valid_entry E self w (bucket_of url params) = None)
    by (unfold valid_entry; by rewrite Hin).
  assert (Hfirst : cache (snd first) !! bucket_of url params = None /\
                   http_calls (snd first) = S (http_calls w)).
  { subst first. rewrite request_miss by done. unfold fetch.
    cbn [http_calls after_lookup]. rewrite Hs.
    rewrite (raise_for_status_success _ _ _ _ _ _ Hcode Hok), Hc.
    cbn [snd cache http_calls after_get after_lookup]. split; [|reflexivity].
    by rewrite lookup_insert_ne. }
  destruct Hfirst as [Hin' Hcalls].
  rewrite request_miss; [|done|unfold valid_entry; by rewrite Hin'].
  destruct (fetch_trace E self url params (after_lookup (snd first) (bucket_of url params)))
    as (_ & _ & _ & ->).
  cbn [http_calls after_lookup]. by rewrite Hcalls.
Qed.

End Repeat.

(** C5, on the code: a caching client asks twice for the same clan, one
    second apart, 300 seconds being the expiry.  The first answer is
    stored under the resolved URL, the second lookup uses the locally
    built key, misses, and a second GET is made; both results are tagged
    network-sourced. *)
Theorem second_call_misses_cache :
  let r := twice (complete (_get_model redirecting blocking_client clan_url (Some Clan) []))
             empty_world in
  fst r = Return (OModel (built blocking_client false 1000000 Clan (VNum 42)),
                  OModel (built blocking_client false 3000000 Clan (VNum 42))) /\
  http_calls (snd r) = 2%nat /\
  List.filter is_cache_get (trace (snd r)) = [CacheGet clan_url; CacheGet clan_url] /\
  cache (snd r) !! "https://api.cr-api.com/clan/2CCCP"
    = Some {| c_timestamp := 2000000; data := VNum 42 |} /\
  cache (snd r) !! clan_url = None.
Proof. vm_compute. repeat split. Qed.

(** With the resolved URL equal to the requested one, the same two calls
    make one GET and the second result is tagged cache-sourced. *)
Example second_call_served_from_cache :
  let r := twice (complete (_get_model (always 200 "42") blocking_client clan_url (Some Clan) []))
             empty_world in
  fst r = Return (OModel (built blocking_client false 1000000 Clan (VNum 42)),
                  OModel (built blocking_client true 0 Clan (VNum 42))) /\
  http_calls (snd r) = 1%nat.
Proof. vm_compute. repeat split. Qed.

(** ** The fallback on concrete runs *)

Lemma stocked_world_valid (E : env) (self : Client) :
  clock E 0%nat < 295000000 -> cache_reset self = 300 ->
  valid_entry E self stocked_world clan_url = Some clan_entry /\
  valid_entry E self stocked_world (bucket_of clan_url forced) = Some clan_entry.
Proof.
  intros Hnow Hreset. split; apply valid_entry_Some; (split; [by vm_compute|]);
    rewrite Hreset; cbn [clock_reads stocked_world c_timestamp clan_entry]; lia.
Qed.

(** C1, on the code: the server answers 503 to a forced refresh and the
    cache holds a valid entry.  The blocking client recovers with the
    cached clan; the deferred client, given the same answers (in the
    shape of either HTTP library) and the same cache, raises a
    [TypeError], the interactions with cache and session being the same. *)
Theorem modes_differ_on_fallback :
  fst (complete (_get_model (always 503 "down") blocking_client clan_url (Some Clan) forced)
         stocked_world)
    = Return (OModel (built blocking_client true (-5000000) Clan (data clan_entry))) /\
  fst (complete (_get_model (always_aio 503 "down") deferred_client clan_url (Some Clan) forced)
         stocked_world)
    = Raise (TypeError "cannot unpack non-iterable coroutine object") /\
  fst (complete (_get_model (always 503 "down") deferred_client clan_url (Some Clan) forced)
         stocked_world)
    = Raise (TypeError "cannot unpack non-iterable coroutine object") /\
  snd (complete (_get_model (always 503 "down") blocking_client clan_url (Some Clan) forced)
         stocked_world)
    = snd (complete (_get_model (always 503 "down") deferred_client clan_url (Some Clan) forced)
             stocked_world).
Proof. vm_compute. repeat split. Qed.

(** C3, on the code: the GET of a forced refresh times out while the
    cache holds a valid entry.  The deferred client raises a [TypeError]
    where the cached clan was due; the blocking client returns the clan
    when the entry sits under the key that includes [refresh=True], and
    raises [NotResponding] when it sits under the key of the plain
    request only; with an empty cache both raise [NotResponding]. *)
Theorem deferred_timeout_loses_fallback :
  valid_entry timing_out deferred_client stocked_world clan_url = Some clan_entry /\
  valid_entry timing_out deferred_client stocked_world (bucket_of clan_url forced)
    = Some clan_entry /\
  fst (complete (_get_model timing_out deferred_client clan_url (Some Clan) forced)
         stocked_world)
    = Raise (TypeError "cannot unpack non-iterable coroutine object") /\
  fst (complete (_get_model timing_out blocking_client clan_url (Some Clan) forced)
         stocked_world)
    = Return (OModel (built blocking_client true (-5000000) Clan (data clan_entry))) /\
  fst (complete (_get_model timing_out blocking_client clan_url (Some Clan) forced)
         (stocked clan_url clan_entry))
    = Raise NotResponding /\
  fst (complete (_get_model timing_out deferred_client clan_url (Some Clan) forced)
         empty_world)
    = Raise NotResponding /\
  fst (complete (_get_model timing_out blocking_client clan_url (Some Clan) forced)
         empty_world)
    = Raise NotResponding.
Proof. vm_compute. repeat split. Qed.

(** The key of the fallback lookup is built from all keyword arguments,
    [refresh] included: after a forced refresh that timed out, the entry
    stored under the key of the plain request is not looked at, in
    either mode. *)
Lemma forced_refresh_fallback_key (self : Client) (model : option model_class) :
  using_cache self = true ->
  let r := complete (_get_model timing_out self clan_url model forced)
             (stocked clan_url clan_entry) in
  fst r = Raise NotResponding /\
  List.filter is_cache_get (trace (snd r)) = [CacheGet (clan_url +:+ "?refresh=True")].
Proof.
  intros Hc r. subst r. rewrite get_model_complete.
  rewrite request_kw_forced by reflexivity.
  rewrite fetch_timeout by reflexivity.
  cbv zeta. unfold recover. rewrite Hc.
  replace (valid_entry timing_out self _ (bucket_of clan_url forced)) with (@None cached_data).
  - split; reflexivity.
  - unfold valid_entry. by vm_compute.
Qed.

(** C9, on the code: the server answers 403 to a forced refresh, which
    the classifier lets fall through as [None].  The deferred client
    raises a [TypeError] even when a valid entry is there; the blocking
    client falls back to a valid entry under the key that includes
    [refresh=True] and raises the unpacking [TypeError] when the entry
    sits under the key of the plain request only; with an empty cache
    both raise the unpacking [TypeError]. *)
Theorem deferred_unclassified_status_loses_fallback :
  _raise_for_status (always_aio 403 "forbidden") deferred_client
      (aiohttp_response 403 clan_url "forbidden") "forbidden" stocked_world
    = (Return RNone, stocked_world) /\
  fst (complete (_get_model (always_aio 403 "forbidden") deferred_client clan_url (Some Clan)
                   forced) stocked_world)
    = Raise (TypeError "cannot unpack non-iterable coroutine object") /\
  fst (complete (_get_model (always 403 "forbidden") blocking_client clan_url (Some Clan) forced)
         stocked_world)
    = Return (OModel (built blocking_client true (-5000000) Clan (data clan_entry))) /\
  fst (complete (_get_model (always 403 "forbidden") blocking_client clan_url (Some Clan) forced)
         (stocked clan_url clan_entry))
    = Raise (TypeError "cannot unpack non-iterable NoneType object") /\
  fst (complete (_get_model (always_aio 403 "forbidden") deferred_client clan_url (Some Clan) [])
         empty_world)
    = Raise (TypeError "cannot unpack non-iterable NoneType object") /\
  fst (complete (_get_model (always 403 "forbidden") blocking_client clan_url (Some Clan) [])
         empty_world)
    = Raise (TypeError "cannot unpack non-iterable NoneType object").
Proof. vm_compute. repeat split. Qed.

(** ** The encoding of parameters and the cache key *)

Lemma append_cons (a : ascii) (s t : string) : String a s +:+ t = String a (s +:+ t).
Proof. reflexivity. Qed.

Lemma append_assoc (s t u : string) : (s +:+ t) +:+ u = s +:+ (t +:+ u).
Proof.
  induction s as [|a s IH]; [reflexivity|].
  rewrite !append_cons. by rewrite IH.
Qed.

Lemma append_cancel (s t u : string) : s +:+ t = s +:+ u -> t = u.
Proof.
  induction s as [|a s IH]; [done|].
  rewrite !append_cons. intros [= H]. by apply IH.
Qed.

Lemma occurs_append (c : ascii) (s t : string) :
  occurs c (s +:+ t) = occurs c s || occurs c t.
Proof.
  induction s as [|a s IH]; [reflexivity|].
  rewrite append_cons. cbn [occurs]. rewrite IH. by rewrite orb_assoc.
Qed.

Lemma all_chars_append (p : ascii -> bool) (s t : string) :
  all_chars p (s +:+ t) = all_chars p s && all_chars p t.
Proof.
  induction s as [|a s IH]; [reflexivity|].
  rewrite append_cons. cbn [all_chars]. rewrite IH. by rewrite andb_assoc.
Qed.

(** A string cut at the first occurrence of a character is cut in one way. *)
Lemma split_unique (c : ascii) (s s' t t' : string) :
  occurs c s = false -> occurs c s' = false ->
  s +:+ String c t = s' +:+ String c t' -> s = s' /\ t = t'.
Proof.
  revert s'. induction s as [|a s IH]; intros [|a' s'] Hs Hs'.
  - intros [= ->]. done.
  - rewrite append_cons. intros [= -> _]. cbn [occurs] in Hs'.
    by rewrite Ascii.eqb_refl in Hs'.
  - rewrite append_cons. intros [= -> _]. cbn [occurs] in Hs.
    by rewrite Ascii.eqb_refl in Hs.
  - rewrite !append_cons. intros [= -> H]. cbn [occurs] in Hs, Hs'.
    apply orb_false_iff in Hs as [_ Hs]. apply orb_false_iff in Hs' as [_ Hs'].
    destruct (IH s' Hs Hs' H) as [-> ->]. done.
Qed.

Lemma quote_plus_cons (c : ascii) (s : string) :
  Url.quote_plus (String c s) = quote_char c +:+ Url.quote_plus s.
Proof. reflexivity. Qed.

Lemma unquote_char (c : ascii) (r : string) :
  unquote_plus (quote_char c +:+ r) = String c (unquote_plus r).
Proof. destruct c as [[] [] [] [] [] [] [] []]; reflexivity. Qed.

Lemma quote_char_alphabet (c : ascii) : all_chars encoded_char (quote_char c) = true.
Proof. destruct c as [[] [] [] [] [] [] [] []]; reflexivity. Qed.

(** X1: an encoded name or value consists of letters, digits, [_.-~],
    [+] and [%] only; in particular it holds none of the separators
    [&], [=] and [?], and no space. *)
Theorem quote_plus_alphabet (s : string) :
  all_chars encoded_char (Url.quote_plus s) = true /\
  occurs "&" (Url.quote_plus s) = false /\
  occurs "=" (Url.quote_plus s) = false /\
  occurs "?" (Url.quote_plus s) = false /\
  occurs " " (Url.quote_plus s) = false.
Proof.
  assert (Hall : all_chars encoded_char (Url.quote_plus s) = true).
  { induction s as [|c s IH]; [reflexivity|].
    rewrite quote_plus_cons, all_chars_append, quote_char_alphabet, IH. reflexivity. }
  assert (Hno : forall c, encoded_char c = false -> occurs c (Url.quote_plus s) = false).
  { intros c Hc. induction (Url.quote_plus s) as [|a r IH]; [reflexivity|].
    cbn [all_chars occurs] in Hall |- *. apply andb_true_iff in Hall as [Ha Hr].
    rewrite (IH Hr), orb_false_r. destruct (Ascii.eqb_spec c a) as [->|]; [congruence|done]. }
  split; [exact Hall|]. repeat split; by apply Hno.
Qed.

(** The encoding can be read back. *)
Lemma unquote_quote_plus (s : string) : unquote_plus (Url.quote_plus s) = s.
Proof.
  induction s as [|c s IH]; [reflexivity|].
  rewrite quote_plus_cons, unquote_char, IH. reflexivity.
Qed.

Lemma quote_plus_inj (s t : string) : Url.quote_plus s = Url.quote_plus t -> s = t.
Proof.
  intros H. rewrite <- (unquote_quote_plus s), <- (unquote_quote_plus t). by rewrite H.
Qed.

Lemma quote_plus_no (c : ascii) (s : string) :
  encoded_char c = false -> occurs c (Url.quote_plus s) = false.
Proof.
  intros Hc.
  assert (Hall : all_chars encoded_char (Url.quote_plus s) = true).
  { induction s as [|a s IH]; [reflexivity|].
    rewrite quote_plus_cons, all_chars_append, quote_char_alphabet, IH. reflexivity. }
  induction (Url.quote_plus s) as [|a r IH]; [reflexivity|].
  cbn [all_chars occurs] in Hall |- *. apply andb_true_iff in Hall as [Ha Hr].
  rewrite (IH Hr), orb_false_r. destruct (Ascii.eqb_spec c a) as [->|]; [congruence|done].
Qed.

Lemma item_inj (kv kv' : string * arg) : item kv = item kv' -> as_text kv = as_text kv'.
Proof.
  unfold item, as_text. intros H.
  change ("=" +:+ ?x) with (String "=" x) in H.
  apply split_unique in H as [Hk Hv]; [|by apply quote_plus_no..].
  apply quote_plus_inj in Hk, Hv. by rewrite Hk, Hv.
Qed.

Lemma item_no_amp (kv : string * arg) : occurs "&" (item kv) = false.
Proof.
  unfold item. rewrite !occurs_append, !quote_plus_no by reflexivity. reflexivity.
Qed.

Lemma item_not_empty (kv : string * arg) : item kv <> "".
Proof.
  unfold item. intros H.
  assert (Ho : occurs "=" (Url.quote_plus (fst kv) +:+ "=" +:+ Url.quote_plus (py_str (snd kv)))
               = true).
  { rewrite !occurs_append. cbn [occurs]. rewrite Ascii.eqb_refl. by rewrite orb_true_r. }
  rewrite H in Ho. discriminate.
Qed.

Lemma urlencode_cons (kv kv' : string * arg) (p : kwargs) :
  Url.urlencode (kv :: kv' :: p) = item kv +:+ String "&" (Url.urlencode (kv' :: p)).
Proof. reflexivity. Qed.

Lemma urlencode_one (kv : string * arg) : Url.urlencode [kv] = item kv.
Proof. reflexivity. Qed.

Lemma urlencode_inj (p q : kwargs) :
  Url.urlencode p = Url.urlencode q -> List.map as_text p = List.map as_text q.
Proof.
  revert q. induction p as [|kv p IH]; intros [|kv' q] H.
  - reflexivity.
  - exfalso. destruct q as [|kv'' q].
    + rewrite urlencode_one in H. by apply (item_not_empty kv').
    + rewrite urlencode_cons in H.
      destruct (item kv') eqn:Hi; [by apply (item_not_empty kv')|discriminate].
  - exfalso. destruct p as [|kv'' p].
    + rewrite urlencode_one in H. by apply (item_not_empty kv).
    + rewrite urlencode_cons in H.
      destruct (item kv) eqn:Hi; [by apply (item_not_empty kv)|discriminate].
  - destruct p as [|kv1 p], q as [|kv2 q].
    + rewrite !urlencode_one in H. cbn [List.map]. by rewrite (item_inj _ _ H).
    + exfalso. rewrite urlencode_one, urlencode_cons in H.
      pose proof (item_no_amp kv) as Hn. rewrite H, occurs_append in Hn.
      cbn [occurs] in Hn. rewrite Ascii.eqb_refl, orb_true_r in Hn. discriminate.
    + exfalso. rewrite urlencode_one, urlencode_cons in H.
      pose proof (item_no_amp kv') as Hn. rewrite <- H, occurs_append in Hn.
      cbn [occurs] in Hn. rewrite Ascii.eqb_refl, orb_true_r in Hn. discriminate.
    + rewrite !urlencode_cons in H.
      apply split_unique in H as [Hi Hr]; [|apply item_no_amp..].
      specialize (IH _ Hr). cbn [List.map] in *. rewrite (item_inj _ _ Hi). by f_equal.
Qed.

Lemma urlencode_as_text (p q : kwargs) :
  List.map as_text p = List.map as_text q -> Url.urlencode p = Url.urlencode q.
Proof.
  intros H. unfold Url.urlencode. f_equal.
  revert q H. induction p as [|[k v] p IH]; intros [|[k' v'] q] H; try discriminate.
  - reflexivity.
  - cbn [List.map as_text fst snd] in *. injection H as -> Hv Hr.
    rewrite Hv. f_equal. by apply IH.
Qed.

(** X2: for one URL, two sets of parameters share a cache key exactly
    when they have the same names, in the same order, with values that
    print alike; a request without parameters shares its key with no
    request that has some. *)
Theorem bucket_of_inj (url : string) (p q : kwargs) :
  bucket_of url p = bucket_of url q <-> List.map as_text p = List.map as_text q.
Proof.
  split.
  - unfold bucket_of. intros H. apply append_cancel in H.
    destruct p as [|kv p], q as [|kv' q]; try discriminate; [reflexivity|].
    change ("?" +:+ ?x) with (String "?" x) in H. injection H as H.
    by apply urlencode_inj.
  - intros H. unfold bucket_of.
    destruct p as [|kv p], q as [|kv' q]; try discriminate; [reflexivity|].
    by rewrite (urlencode_as_text _ _ H).
Qed.

(** ** What one call does to the collaborators *)

Section Effects.

Context (E : env) (self : Client).

(** The classifier writes at most one entry, under the resolved URL and
    only with caching on, and returns only network-sourced triples. *)
Lemma raise_for_status_effects (resp : response) (text : string) (w : world) :
  let r := _raise_for_status E self resp text w in
  http_calls (snd r) = http_calls w /\
  (exists evs, trace (snd r) = trace w ++ evs /\
               (evs = [] \/ using_cache self = true /\ exists k v, evs = [CacheSet k v])) /\
  (cache (snd r) = cache w \/
   using_cache self = true /\
   exists code, code_of resp = Some code /\ 200 <= code < 300 /\
     cache (snd r) = <[resp_url resp := {| c_timestamp := clock E (clock_reads w);
                                           data := parse_body E text |}]> (cache w)) /\
  (forall d c t, fst r = Return (RTuple d c t) -> c = false /\ d = parse_body E text).
Proof.
  cbv zeta.
  assert (Hnil : forall w0 : world, exists evs : list event, trace w0 = trace w0 ++ evs /\
            (evs = [] \/ using_cache self = true /\ exists k v, evs = [CacheSet k v])).
  { intros w0. exists []. rewrite app_nil_r. auto. }
  destruct (code_of resp) as [code|] eqn:Hc.
  2:{ rewrite raise_for_status_no_code by done. cbn [fst snd].
      split; [reflexivity|split; [apply Hnil|split; [by left|intros ? ? ?; discriminate]]]. }
  destruct (decide (200 <= code < 300)) as [Hok|Hno].
  - rewrite (raise_for_status_success _ _ _ _ _ _ Hc Hok).
    destruct (using_cache self) eqn:Hu; cbn [fst snd http_calls trace cache].
    + split; [reflexivity|]. split; [eauto 10|]. split; [right; eauto 10|].
      intros d c t [= <- <- _]. done.
    + split; [reflexivity|]. split; [apply Hnil|]. split; [by left|].
      intros d c t [= <- <- _]. done.
  - rewrite (raise_for_status_code _ _ _ _ _ _ Hc).
    replace ((code <? 300) && (200 <=? code)) with false.
    2:{ symmetry. apply andb_false_iff.
        destruct (Z.ltb_spec code 300); [right; apply Z.leb_gt; lia | by left]. }
    destruct (code =? 401), (code =? 404), (500 <=? code); cbn [fst snd];
      (split; [reflexivity|split; [apply Hnil|split; [by left|intros ? ? ?; discriminate]]]).
Qed.

(** The network step: one GET, then the classifier. *)
Lemma fetch_effects (url : string) (params : kwargs) (w : world) :
  let r := fetch E self url params w in
  http_calls (snd r) = S (http_calls w) /\
  (exists evs, trace (snd r) = trace w ++ HttpGet url (timeout self) (headers self) params :: evs /\
               (evs = [] \/ using_cache self = true /\ exists k v, evs = [CacheSet k v])) /\
  (cache (snd r) = cache w \/
   using_cache self = true /\
   exists resp code, server E (http_calls w) url params = HResponse resp /\
     code_of resp = Some code /\ 200 <= code < 300 /\
     cache (snd r) = <[resp_url resp := {| c_timestamp := clock E (clock_reads w);
                                           data := parse_body E (resp_text resp) |}]> (cache w)) /\
  (forall d c t, fst r = Return (RTuple d c t) -> c = false).
Proof.
  cbv zeta. unfold fetch.
  destruct (server E (http_calls w) url params) as [resp| |msg] eqn:Hs.
  - destruct (raise_for_status_effects resp (resp_text resp) (after_get self w url params))
      as (Hh & (evs & Ht & Hevs) & Hcache & Hflag).
    split; [rewrite Hh; reflexivity|]. split; [|split].
    + exists evs. rewrite Ht. cbn [trace after_get]. by rewrite <- app_assoc.
    + destruct Hcache as [Hsame|(Hu & code & Hc & Hok & Hins)]; [by left|].
      right. split; [done|]. exists resp, code. done.
    + intros d c t H. by destruct (Hflag d c t H).
  - cbn [fst snd]. split; [reflexivity|]. split; [exists []; auto|]. split; [by left|].
    intros ? ? ?; discriminate.
  - cbn [fst snd]. split; [reflexivity|]. split; [exists []; auto|]. split; [by left|].
    intros ? ? ?; discriminate.
Qed.

(** The request as [_get_model] issues it, driven to completion. *)
Lemma request_kw_complete (url : string) (kw : kwargs) (w : world) :
  complete (request_kw E self url kw) w =
    match served E self url kw w with
    | Some cd => (Return (hit cd), after_lookup w (bucket_of url (query_of kw)))
    | None => fetch E self url (query_of kw) (before_get self url kw w)
    end.
Proof.
  unfold request_kw, served, before_get, refresh_of, query_of.
  rewrite request_complete.
  destruct (consults_cache self _); [|reflexivity].
  destruct (valid_entry E self w _); reflexivity.
Qed.

(** The world a call leaves: that of the request, plus the lookup of the
    [except] block when the request yielded no triple and caching is on. *)
Lemma get_model_world (url : string) (model : option model_class) (kw : kwargs) (w : world) :
  snd (complete (_get_model E self url model kw) w) =
    match complete (request_kw E self url kw) w with
    | (Return (RTuple _ _ _), w1) => w1
    | (_, w1) => if using_cache self then after_lookup w1 (bucket_of url kw) else w1
    end.
Proof.
  rewrite get_model_complete. cbv zeta.
  destruct (complete (request_kw E self url kw) w) as [[[|d c t]|e] w1];
    [..|reflexivity| ]; unfold recover; destruct (using_cache self); try reflexivity;
    destruct (valid_entry E self w1 (bucket_of url kw)); try reflexivity;
    destruct (is_async self); reflexivity.
Qed.

End Effects.

Section Guarantees.

Context (E : env) (self : Client).

Lemma before_get_same (url : string) (kw : kwargs) (w : world) :
  http_calls (before_get self url kw w) = http_calls w /\
  cache (before_get self url kw w) = cache w /\
  exists pre, trace (before_get self url kw w) = trace w ++ pre /\
              (pre = [] \/ using_cache self = true /\
                           pre = [CacheGet (bucket_of url (query_of kw))]).
Proof.
  unfold before_get, consults_cache.
  destruct (using_cache self); cbn [andb].
  - destruct (is_False (refresh_of kw)); cbn; repeat split; eauto.
    exists []. rewrite app_nil_r. auto.
  - repeat split. exists []. rewrite app_nil_r. auto.
Qed.

Lemma served_using_cache (url : string) (kw : kwargs) (w : world) (cd : cached_data) :
  served E self url kw w = Some cd -> using_cache self = true.
Proof.
  unfold served, consults_cache. destruct (using_cache self); [done|discriminate].
Qed.

(** X3: a client built without a cache path never touches the cache: a
    call makes its GET and nothing else, in either mode. *)
Theorem no_cache_no_cache_access (url : string) (model : option model_class)
    (kw : kwargs) (w : world) :
  using_cache self = false ->
  let w' := snd (complete (_get_model E self url model kw) w) in
  cache w' = cache w /\
  trace w' = trace w ++ [HttpGet url (timeout self) (headers self) (query_of kw)].
Proof.
  intros Hu w'. subst w'. rewrite get_model_world, request_kw_complete.
  unfold served, before_get, consults_cache. rewrite Hu. cbn [andb].
  destruct (fetch_effects E self url (query_of kw) w)
    as (_ & (evs & Ht & Hevs) & Hcache & _).
  destruct Hevs as [->|[? _]]; [|congruence].
  destruct Hcache as [Hc|[? _]]; [|congruence].
  destruct (fetch E self url (query_of kw) w) as [[[|d c t]|e] w1]; cbn [snd] in *; done.
Qed.

(** X4: a call makes no GET when its initial lookup serves an entry, and
    exactly one otherwise: a failed request is never repeated. *)
Theorem get_model_one_get (url : string) (model : option model_class)
    (kw : kwargs) (w : world) :
  http_calls (snd (complete (_get_model E self url model kw) w)) =
    match served E self url kw w with
    | Some _ => http_calls w
    | None => S (http_calls w)
    end.
Proof.
  rewrite get_model_world, request_kw_complete.
  destruct (served E self url kw w) as [cd|]; [reflexivity|].
  destruct (fetch_effects E self url (query_of kw) (before_get self url kw w)) as (Hh & _).
  destruct (before_get_same url kw w) as (Hb & _). rewrite Hb in Hh.
  destruct (fetch E self url (query_of kw) (before_get self url kw w)) as [[[|d c t]|e] w1];
    cbn [snd] in *; destruct (using_cache self); done.
Qed.

(** X5: the provenance flag tells the truth: a triple handed back by
    [request] is tagged cache-sourced exactly when no GET was made for it. *)
Theorem request_flag_truthful (url : string) (refresh : arg) (params : kwargs) (w : world) :
  match complete (request E self url refresh params) w with
  | (Return (RTuple d cached t), w') => cached = true <-> http_calls w' = http_calls w
  | _ => True
  end.
Proof.
  rewrite request_complete.
  destruct (consults_cache self refresh).
  - destruct (valid_entry E self w (bucket_of url params)) as [cd|]; [done|].
    destruct (fetch_effects E self url params (after_lookup w (bucket_of url params)))
      as (Hh & _ & _ & Hflag).
    destruct (fetch E self url params _) as [[[|d c t]|e] w1]; [done| |done].
    cbn [fst snd] in *. rewrite (Hflag d c t eq_refl), Hh. cbn. split; [done|lia].
  - destruct (fetch_effects E self url params w) as (Hh & _ & _ & Hflag).
    destruct (fetch E self url params w) as [[[|d c t]|e] w1]; [done| |done].
    cbn [fst snd] in *. rewrite (Hflag d c t eq_refl), Hh. split; [done|lia].
Qed.



(** X7: a call never removes a cache entry, and changes none but the
    one under the resolved URL of a 2xx response, which then holds the
    body of that response. *)
Theorem get_model_cache_frame (url : string) (model : option model_class)
    (kw : kwargs) (w : world) :
  let w' := snd (complete (_get_model E self url model kw) w) in
  (forall k, is_Some (cache w !! k) -> is_Some (cache w' !! k)) /\
  (forall k, cache w' !! k = cache w !! k \/
     using_cache self = true /\
     exists resp code,
       server E (http_calls w) url (query_of kw) = HResponse resp /\
       code_of resp = Some code /\ 200 <= code < 300 /\ k = resp_url resp /\
       cache w' !! k = Some {| c_timestamp := clock E (clock_reads (before_get self url kw w));
                               data := parse_body E (resp_text resp) |}).
Proof.
  intros w'.
  assert (Hframe : forall k, cache w' !! k = cache w !! k \/
     using_cache self = true /\
     exists resp code,
       server E (http_calls w) url (query_of kw) = HResponse resp /\
       code_of resp = Some code /\ 200 <= code < 300 /\ k = resp_url resp /\
       cache w' !! k = Some {| c_timestamp := clock E (clock_reads (before_get self url kw w));
                               data := parse_body E (resp_text resp) |}).
  { intros k. subst w'. rewrite get_model_world, request_kw_complete.
    destruct (served E self url kw w) as [cd|]; [by left|].
    destruct (fetch_effects E self url (query_of kw) (before_get self url kw w))
      as (_ & _ & Hcache & _).
    destruct (before_get_same url kw w) as (Hb & Hbc & _). rewrite Hb, Hbc in Hcache.
    assert (Hw : forall w1 : world,
      cache (if using_cache self then after_lookup w1 (bucket_of url kw) else w1) = cache w1)
      by (intros w1; by destruct (using_cache self)).
    destruct (fetch E self url (query_of kw) (before_get self url kw w)) as [[[|d c t]|e] w1];
      cbn [snd] in Hcache; rewrite ?Hw;
      (destruct Hcache as [->|(Hu & resp & code & Hs & Hc & Hok & ->)]; [by left|];
       destruct (decide (k = resp_url resp)) as [->|Hne];
       [right; split; [done|]; exists resp, code; by rewrite lookup_insert_eq
       |left; by rewrite lookup_insert_ne]). }
  split; [|exact Hframe].
  intros k Hk. destruct (Hframe k) as [->|(_ & resp & code & _ & _ & _ & _ & ->)]; [done|eauto].
Qed.

End Guarantees.

(** ** A request answered by the server *)

Section Success.

Context (E : env) (self : Client).

(** A call whose request reaches the server and is answered with a 2xx
    status, in full. *)
Lemma get_model_success (url : string) (model : option model_class) (kw : kwargs)
    (w : world) (r : response) (code : Z) :
  served E self url kw w = None ->
  server E (http_calls w) url (query_of kw) = HResponse r ->
  code_of r = Some code -> 200 <= code < 300 ->
  let w0 := before_get self url kw w in
  let body := parse_body E (resp_text r) in
  let entry := {| c_timestamp := clock E (clock_reads w0); data := body |} in
  complete (_get_model E self url model kw) w =
    if using_cache self then
      (_convert_model self body false (clock E (S (clock_reads w0))) model,
       {| cache := <[resp_url r := entry]> (cache w);
          clock_reads := S (S (clock_reads w0));
          http_calls := S (http_calls w);
          trace := trace w0 ++ [HttpGet url (timeout self) (headers self) (query_of kw);
                                CacheSet (resp_url r) entry] |})
    else
      (_convert_model self body false (clock E (clock_reads w)) model,
       {| cache := cache w;
          clock_reads := S (clock_reads w);
          http_calls := S (http_calls w);
          trace := trace w ++ [HttpGet url (timeout self) (headers self) (query_of kw)] |}).
Proof.
  intros Hserved Hs Hc Hok w0 body entry. subst w0 body entry.
  destruct (before_get_same self url kw w) as (Hb & Hbc & _).
  rewrite get_model_complete, request_kw_complete, Hserved.
  rewrite (fetch_response E self url (query_of kw) (before_get self url kw w) r)
    by (by rewrite Hb).
  rewrite (raise_for_status_success _ _ _ _ _ _ Hc Hok).
  destruct (using_cache self) eqn:Hu.
  - cbn [after_get cache clock_reads http_calls trace]. rewrite Hb, Hbc, <- app_assoc.
    reflexivity.
  - unfold before_get, consults_cache. rewrite Hu. reflexivity.
Qed.

(** X8: when the request of a call reaches the server and the answer has
    a 2xx status, the call converts the parsed body, tagged
    network-sourced and stamped with the clock reading that follows the
    answer; one GET was made; and with caching on the body now sits in
    the cache under the resolved URL, stamped with the time of the write,
    the cache being untouched otherwise. *)
Theorem get_model_network_success (url : string) (model : option model_class)
    (kw : kwargs) (w : world) (r : response) (code : Z) :
  served E self url kw w = None ->
  server E (http_calls w) url (query_of kw) = HResponse r ->
  code_of r = Some code -> 200 <= code < 300 ->
  let res := complete (_get_model E self url model kw) w in
  let w0 := before_get self url kw w in
  let body := parse_body E (resp_text r) in
  fst res = _convert_model self body false
              (clock E (clock_reads w0 + (if using_cache self then 1 else 0))%nat) model /\
  http_calls (snd res) = S (http_calls w) /\
  cache (snd res) =
    if using_cache self
    then <[resp_url r := {| c_timestamp := clock E (clock_reads w0); data := body |}]> (cache w)
    else cache w.
Proof.
  intros Hserved Hs Hc Hok res w0 body. subst res w0 body.
  rewrite (get_model_success url model kw w r code Hserved Hs Hc Hok).
  destruct (using_cache self) eqn:Hu; cbn [fst snd http_calls cache].
  - by rewrite Nat.add_1_r.
  - rewrite Nat.add_0_r. unfold before_get, consults_cache. by rewrite Hu.
Qed.

(** X9: a 2xx answer whose body is not JSON comes back as the raw text,
    whatever model the call was to build, also when there is none. *)
Theorem unparsable_body_returned_as_text (url : string) (model : option model_class)
    (kw : kwargs) (w : world) (r : response) (code : Z) :
  served E self url kw w = None ->
  server E (http_calls w) url (query_of kw) = HResponse r ->
  code_of r = Some code -> 200 <= code < 300 ->
  json_loads E (resp_text r) = None ->
  fst (complete (_get_model E self url model kw) w) = Return (OStr (resp_text r)).
Proof.
  intros Hserved Hs Hc Hok Hjson.
  rewrite (get_model_success url model kw w r code Hserved Hs Hc Hok).
  unfold parse_body. rewrite Hjson. by destruct (using_cache self).
Qed.

End Success.

(** ** Conversion without a model, classification, expiry *)

Section Edges.

Context (E : env) (self : Client).

(** X10: without a model class ([get_version], [get_endpoints]) the
    conversion succeeds exactly on a string and on a list of strings,
    the empty list included; on anything else calling [None] raises. *)
Theorem convert_without_model (d : pyval) (cached : bool) (ts : Z) :
  (exists r, _convert_model self d cached ts None = Return r) <->
  (is_str d = true \/ exists l, d = VList l /\ forallb is_str l = true).
Proof.
  split.
  - intros [r Hr]. destruct d as [| | |s|l|kvs]; try discriminate; [by left|].
    right. exists l. split; [done|].
    cbn [_convert_model] in Hr. destruct (forallb is_str l) eqn:Hl; [done|].
    destruct l as [|x l]; [discriminate Hl|discriminate Hr].
  - intros [Hs|(l & -> & Hl)].
    + destruct d; try discriminate. eauto.
    + cbn [_convert_model]. rewrite Hl. eauto.
Qed.

(** X11: the classifier returns [None] exactly for the statuses it has
    no branch for: below 200, from 300 to 499 except 401 and 404; and a
    response object without a status raises [AttributeError]. *)
Theorem raise_for_status_None (resp : response) (text : string) (w : world) :
  match code_of resp with
  | Some code => fst (_raise_for_status E self resp text w) = Return RNone <-> unclassified code
  | None => fst (_raise_for_status E self resp text w) = Raise (AttributeError "status_code")
  end.
Proof.
  destruct (code_of resp) as [code|] eqn:Hc.
  2:{ by rewrite raise_for_status_no_code. }
  unfold unclassified. split.
  - intros H. destruct (decide (200 <= code < 300)) as [Hok|Hno].
    { rewrite (raise_for_status_success _ _ _ _ _ _ Hc Hok) in H.
      destruct (using_cache self); discriminate. }
    rewrite (raise_for_status_code _ _ _ _ _ _ Hc) in H.
    replace ((code <? 300) && (200 <=? code)) with false in H.
    2:{ symmetry. apply andb_false_iff.
        destruct (Z.ltb_spec code 300); [right; apply Z.leb_gt; lia | by left]. }
    destruct (Z.eqb_spec code 401); [discriminate|].
    destruct (Z.eqb_spec code 404); [discriminate|].
    destruct (Z.leb_spec 500 code); [discriminate|]. done.
  - intros (Hno & H1 & H4 & H5).
    by rewrite (raise_for_status_other _ _ _ _ _ _ Hc Hno H1 H4 H5).
Qed.

(** X12: the expiry is exclusive: an entry whose age has reached
    [cache_reset] seconds, be it to the microsecond, is not served; the
    request goes to the server. *)
Theorem request_expired_entry (url : string) (params : kwargs) (w : world)
    (cd : cached_data) :
  using_cache self = true ->
  cache w !! bucket_of url params = Some cd ->
  cache_reset self * 1000000 <= clock E (clock_reads w) - c_timestamp cd ->
  let r := complete (request E self url (ABool false) params) w in
  r = fetch E self url params (after_lookup w (bucket_of url params)) /\
  http_calls (snd r) = S (http_calls w).
Proof.
  intros Hu Hin Hage r. subst r.
  rewrite request_miss by (done || by eapply valid_entry_expired).
  split; [reflexivity|].
  by destruct (fetch_effects E self url params (after_lookup w (bucket_of url params)))
    as (-> & _).
Qed.

End Edges.

(** ** The two modes, and what a call may do *)

Section Uniform.

Context (E : env) (c : Client).

(** X16: the request step does not depend on the mode: driven to
    completion it yields the same result or exception and leaves the
    same cache, clock and trace, whichever way [is_async] is set. *)
Theorem request_mode_independent (b : bool) (url : string) (refresh : arg)
    (params : kwargs) (w : world) :
  complete (request E (set_async b c) url refresh params) w
  = complete (request E c url refresh params) w.
Proof. rewrite !request_complete. reflexivity. Qed.

(** X19: a blocking and a deferred client that differ in nothing else
    end a call in the same world, and either raise the same exception,
    or convert the same triple, or - where the blocking client recovers
    through the cache - the deferred one raises the [TypeError] of the
    coroutine it did not await. *)
Theorem get_model_modes (url : string) (model : option model_class)
    (kw : kwargs) (w : world) :
  let blocking := complete (_get_model E (set_async false c) url model kw) w in
  let deferred := complete (_get_model E (set_async true c) url model kw) w in
  (exists e w', blocking = (Raise e, w') /\ deferred = (Raise e, w')) \/
  (exists d cached t w',
     blocking = (_convert_model (set_async false c) d cached t model, w') /\
     deferred = (_convert_model (set_async true c) d cached t model, w')) \/
  (exists cd w',
     using_cache c = true /\
     blocking = (_convert_model (set_async false c) (data cd) true (c_timestamp cd) model, w') /\
     deferred = (Raise unpack_coroutine, w')).
Proof.
  cbv zeta. rewrite !get_model_triple.
  destruct (modes_agree_or_fallback E c url kw w) as [->|(cd & w1 & Hu & _ & -> & ->)].
  - destruct (triple E (set_async false c) url kw w) as [[[[d cached] t]|e] w'].
    + right. left. by exists d, cached, t, w'.
    + left. by exists e, w'.
  - right. right. by exists cd, (after_lookup w1 (bucket_of url kw)).
Qed.

End Uniform.

Section Conduct.

Context (E : env) (self : Client).

(** What a call adds to the trace. *)
Lemma get_model_conduct (url : string) (model : option model_class)
    (kw : kwargs) (w : world) :
  exists evs,
    trace (snd (complete (_get_model E self url model kw) w)) = trace w ++ evs /\
    Forall (allowed self url kw) evs.
Proof.
  rewrite get_model_world, request_kw_complete.
  destruct (served E self url kw w) as [cd|] eqn:Hserved.
  { apply served_using_cache in Hserved. eexists [_]. split; [reflexivity|].
    repeat constructor; auto. }
  destruct (fetch_effects E self url (query_of kw) (before_get self url kw w))
    as (_ & (evs & Ht & Hevs) & _ & _).
  destruct (before_get_same self url kw w) as (_ & _ & pre & Hpre & Hpre').
  rewrite Hpre in Ht.
  assert (Hok : Forall (allowed self url kw)
                  (pre ++ HttpGet url (timeout self) (headers self) (query_of kw) :: evs)).
  { apply Forall_app. split.
    - destruct Hpre' as [->|[Hu ->]]; repeat constructor; auto.
    - constructor; [done|]. destruct Hevs as [->|(Hu & k & v & ->)]; repeat constructor; auto. }
  assert (Hend : forall w1 : world,
    trace w1 = (trace w ++ pre) ++ HttpGet url (timeout self) (headers self) (query_of kw) :: evs ->
    exists evs', trace (if using_cache self then after_lookup w1 (bucket_of url kw) else w1)
                 = trace w ++ evs' /\ Forall (allowed self url kw) evs').
  { intros w1 H1. destruct (using_cache self) eqn:Hu.
    - exists ((pre ++ HttpGet url (timeout self) (headers self) (query_of kw) :: evs)
              ++ [CacheGet (bucket_of url kw)]).
      cbn [trace after_lookup]. rewrite H1. split; [by rewrite <- !app_assoc|].
      apply Forall_app. split; [exact Hok|].
      constructor; [|constructor]. split; [done|by right].
    - exists (pre ++ HttpGet url (timeout self) (headers self) (query_of kw) :: evs).
      rewrite H1. split; [by rewrite <- !app_assoc|exact Hok]. }
  destruct (fetch E self url (query_of kw) (before_get self url kw w)) as [[[|d cc t]|e] w1];
    cbn [snd] in Ht; [by apply Hend| |by apply Hend].
  exists (pre ++ HttpGet url (timeout self) (headers self) (query_of kw) :: evs).
  rewrite Ht. split; [by rewrite <- !app_assoc|exact Hok].
Qed.

End Conduct.

(** X20: a client built by [__init__] sends every GET of a call to the
    requested URL, with the bearer token and the user agent as headers,
    with the configured timeout (10 unless given) and with the keyword
    arguments less [refresh] as query parameters; it looks up only the
    two keys of the call; and it writes to the cache only when a cache
    path was given. *)
Theorem init_client_conduct (E : env) (tok : string) (async : bool) (o : options)
    (url : string) (model : option model_class) (kw : kwargs) (w : world) :
  exists evs,
    trace (snd (complete (_get_model E (__init__ tok async o) url model kw) w))
      = trace w ++ evs /\
    Forall (fun ev =>
              match ev with
              | HttpGet u t h p =>
                  u = url /\ t = default 10 (opt_timeout o) /\
                  h = [("Authorization", "Bearer " +:+ tok);
                       ("user-agent", "python-clashroyale-client (kyb3r)")] /\
                  p = kw_remove "refresh" kw
              | CacheGet k =>
                  truthy_fp (opt_cache_fp o) = true /\
                  (k = bucket_of url (kw_remove "refresh" kw) \/ k = bucket_of url kw)
              | CacheSet k v => truthy_fp (opt_cache_fp o) = true
              end) evs.
Proof.
  destruct (get_model_conduct E (__init__ tok async o) url model kw w) as (evs & Ht & Hall).
  exists evs. split; [exact Ht|].
  eapply Forall_impl; [exact Hall|]. intros [k|k v|u t h p]; exact (fun H => H).
Qed.

(** ** The accessors *)

Section AccessorFacts.

Context (E : env) (A : api) (self : Client).

Lemma path_keys_apart (base rest1 rest2 : string) (a b : ascii) (p q : kwargs) :
  a <> b ->
  bucket_of ((base +:+ String "/" (String a "")) +:+ rest1) p
  <> bucket_of ((base +:+ String "/" (String b "")) +:+ rest2) q.
Proof.
  intros Hab H. unfold bucket_of in H. rewrite !append_assoc in H.
  apply append_cancel in H. rewrite !append_cons in H. by injection H.
Qed.

Lemma added_app (w r : world) (evs : list event) :
  trace r = trace w ++ evs -> added w r = evs.
Proof. intros H. unfold added. rewrite H. apply drop_app_length. Qed.

Lemma lookups_apart (url1 url2 : string) (kw1 kw2 : kwargs) (evs1 evs2 : list event) :
  (forall p q, bucket_of url1 p <> bucket_of url2 q) ->
  Forall (allowed self url1 kw1) evs1 -> Forall (allowed self url2 kw2) evs2 ->
  Forall (fun e1 => Forall (apart e1) evs2) evs1.
Proof.
  intros Hne H1 H2. apply Forall_forall. intros e1 He1. apply Forall_forall. intros e2 He2.
  pose proof (proj1 (Forall_forall _ _) H1 e1 He1) as Ha1.
  pose proof (proj1 (Forall_forall _ _) H2 e2 He2) as Ha2.
  destruct e1 as [k1| |]; [|done..]. destruct e2 as [k2| |]; [|done..].
  cbn in *. destruct Ha1 as [_ [-> | ->]], Ha2 as [_ [-> | ->]]; apply Hne.
Qed.

(** X22: [get_top_clans] and [get_top_players] never look up the same
    cache key, whatever the endpoint table, the country keys and the
    parameters: the two never serve each other's entries. *)
Theorem top_accessors_keys_apart (country1 country2 : string) (kw1 kw2 : kwargs)
    (w1 w2 : world) :
  Forall (fun e1 =>
            Forall (apart e1)
              (added w2 (snd (complete (get_top_players E A self country2 kw2) w2))))
    (added w1 (snd (complete (get_top_clans E A self country1 kw1) w1))).
Proof.
  unfold get_top_clans, get_top_players. cbv zeta.
  destruct (get_model_conduct E self ((API_TOP A +:+ "/clans/") +:+ country1)
              (Some ClanInfo) kw1 w1) as (evs1 & Ht1 & Ha1).
  destruct (get_model_conduct E self ((API_TOP A +:+ "/players/") +:+ country2)
              (Some PlayerInfo) kw2 w2) as (evs2 & Ht2 & Ha2).
  rewrite (added_app _ _ _ Ht1), (added_app _ _ _ Ht2).
  eapply lookups_apart; [|exact Ha1|exact Ha2].
  intros p q.
  change "/clans/" with (String "/" (String "c" "") +:+ "lans/").
  change "/players/" with (String "/" (String "p" "") +:+ "layers/").
  rewrite <- !(append_assoc (API_TOP A)), !(append_assoc (API_TOP A +:+ _)).
  by apply path_keys_apart.
Qed.

(** X23: [get_version] and [get_endpoints] pass no model class: when the
    server answers 2xx with a body that is neither a string nor a list
    of strings, the call raises the [TypeError] of calling [None], and
    with caching on the body has been stored all the same. *)
Theorem get_version_object_payload (w : world) (r : response) (code : Z) :
  served E self (API_VERSION A) [] w = None ->
  server E (http_calls w) (API_VERSION A) [] = HResponse r ->
  code_of r = Some code -> 200 <= code < 300 ->
  is_str (parse_body E (resp_text r)) = false ->
  (forall l, parse_body E (resp_text r) = VList l -> forallb is_str l = false) ->
  let res := complete (get_version E A self) w in
  fst res = Raise (TypeError "'NoneType' object is not callable") /\
  (using_cache self = true ->
   exists t, cache (snd res) !! resp_url r
             = Some {| c_timestamp := t; data := parse_body E (resp_text r) |}).
Proof.
  intros Hserved Hs Hc Hok Hstr Hlist res. subst res. unfold get_version.
  rewrite (get_model_success E self (API_VERSION A) None [] w r code Hserved Hs Hc Hok).
  assert (Hconv : forall t, _convert_model self (parse_body E (resp_text r)) false t None
                            = Raise (TypeError "'NoneType' object is not callable")).
  { intros t. destruct (parse_body E (resp_text r)) as [| | |s|l|kvs]; try reflexivity.
    - discriminate Hstr.
    - cbn [_convert_model]. rewrite (Hlist l eq_refl).
      destruct l as [|x l]; [by specialize (Hlist [] eq_refl)|reflexivity]. }
  destruct (using_cache self); cbn [fst snd cache]; rewrite Hconv; split; try done.
  intros _. eexists. apply lookup_insert_eq.
Qed.

(** X24: [get_clan] on a client without cache: one GET goes to the clan
    endpoint followed by the tags joined with commas - for no tag at all
    to the endpoint followed by a slash - and a 2xx answer that is a JSON
    object comes back as one [Clan] model tagged network-sourced. *)
Theorem get_clan_without_cache (tags : list string) (kw : kwargs) (w : world)
    (r : response) (code : Z) :
  using_cache self = false ->
  server E (http_calls w) ((API_CLAN A +:+ "/") +:+ Url.join "," tags) (query_of kw)
    = HResponse r ->
  code_of r = Some code -> 200 <= code < 300 ->
  is_str (parse_body E (resp_text r)) = false ->
  is_list (parse_body E (resp_text r)) = false ->
  let res := complete (get_clan E A self tags kw) w in
  fst res = Return (OModel (built self false (clock E (clock_reads w)) Clan
                              (parse_body E (resp_text r)))) /\
  added w (snd res) = [HttpGet ((API_CLAN A +:+ "/") +:+ Url.join "," tags)
                         (timeout self) (headers self) (query_of kw)].
Proof.
  intros Hu Hs Hc Hok Hstr Hlist res. subst res. unfold get_clan. cbv zeta.
  assert (Hserved : served E self ((API_CLAN A +:+ "/") +:+ Url.join "," tags) kw w = None).
  { unfold served, consults_cache. by rewrite Hu. }
  rewrite (get_model_success E self _ (Some Clan) kw w r code Hserved Hs Hc Hok), Hu.
  cbn [fst snd]. split.
  - destruct (parse_body E (resp_text r)); try discriminate; reflexivity.
  - by apply added_app.
Qed.

End AccessorFacts.

(** ** The statements above on concrete runs *)

Lemma ticking_monotone (E : env) : clock E = ticking -> monotone E.
Proof. intros H n m Hnm. rewrite H. unfold ticking. lia. Qed.

Lemma no_cache_no_cache_access_witness :
  cache (snd (complete (_get_model (always 200 "42") plain_client clan_url (Some Clan) forced)
                empty_world)) = cache empty_world /\
  trace (snd (complete (_get_model (always 200 "42") plain_client clan_url (Some Clan) forced)
                empty_world))
    = trace empty_world ++ [HttpGet clan_url (timeout plain_client) (headers plain_client)
                              (query_of forced)].
Proof.
  apply (no_cache_no_cache_access (always 200 "42") plain_client clan_url (Some Clan) forced
           empty_world).
  reflexivity.
Defined.

Lemma get_model_network_success_witness :
  fst (complete (_get_model (always 200 "42") blocking_client clan_url (Some Clan) [])
         empty_world)
    = Return (OModel (built blocking_client false 1000000 Clan (VNum 42))) /\
  http_calls (snd (complete (_get_model (always 200 "42") blocking_client clan_url (Some Clan) [])
                     empty_world)) = 1%nat.
Proof.
  destruct (get_model_network_success (always 200 "42") blocking_client clan_url (Some Clan) []
              empty_world (requests_response 200 clan_url "42") 200) as (Hr & Hh & _).
  - reflexivity.
  - reflexivity.
  - reflexivity.
  - lia.
  - split; [rewrite Hr; reflexivity | exact Hh].
Defined.

Lemma unparsable_body_returned_as_text_witness :
  fst (complete (_get_model (always_aio 200 "<html>") deferred_client clan_url None [])
         empty_world)
    = Return (OStr "<html>").
Proof.
  apply (unparsable_body_returned_as_text (always_aio 200 "<html>") deferred_client clan_url
           None [] empty_world (aiohttp_response 200 clan_url "<html>") 200).
  - reflexivity.
  - reflexivity.
  - reflexivity.
  - lia.
  - reflexivity.
Defined.

Lemma request_expired_entry_witness :
  http_calls (snd (complete (request (always 200 "42") blocking_client clan_url (ABool false) [])
                     (stocked clan_url {| c_timestamp := -300000000; data := VNum 1 |})))
    = 1%nat.
Proof.
  destruct (request_expired_entry (always 200 "42") blocking_client clan_url []
              (stocked clan_url {| c_timestamp := -300000000; data := VNum 1 |})
              {| c_timestamp := -300000000; data := VNum 1 |}) as [_ Hh].
  - reflexivity.
  - vm_compute. reflexivity.
  - vm_compute. discriminate.
  - exact Hh.
Defined.


Lemma second_request_misses_witness :
  http_calls (snd (complete (request redirecting blocking_client clan_url (ABool false) [])
                     (snd (complete (request redirecting blocking_client clan_url
                                       (ABool false) []) empty_world))))
    = 2%nat.
Proof.
  apply (second_request_misses redirecting blocking_client clan_url [] empty_world
           (requests_response 200 "https://api.cr-api.com/clan/2CCCP" "42") 200).
  - reflexivity.
  - reflexivity.
  - reflexivity.
  - reflexivity.
  - lia.
  - vm_compute. discriminate.
Defined.

Lemma fallback_needs_refresh_witness :
  valid_entry timing_out blocking_client
    (snd (complete (request_kw timing_out blocking_client clan_url [])
            (stocked clan_url stale_entry)))
    (bucket_of clan_url []) = None.
Proof.
  apply (fallback_needs_refresh timing_out blocking_client clan_url []
           (stocked clan_url stale_entry) _ (Raise NotResponding)).
  - apply ticking_monotone. reflexivity.
  - reflexivity.
  - reflexivity.
  - vm_compute. reflexivity.
  - discriminate.
Defined.

Lemma failure_propagates_witness :
  fst (complete (_get_model timing_out deferred_client clan_url (Some Clan) []) empty_world)
    = Raise NotResponding.
Proof.
  apply (failure_propagates timing_out deferred_client clan_url (Some Clan) [] empty_world
           (snd (complete (request_kw timing_out deferred_client clan_url []) empty_world))).
  - vm_compute. reflexivity.
  - right. vm_compute. reflexivity.
Defined.

Lemma blocking_failure_falls_back_witness :
  fst (complete (_get_model timing_out blocking_client clan_url (Some Clan) forced)
         stocked_world)
    = Return (OModel (built blocking_client true (-5000000) Clan (data clan_entry))).
Proof.
  rewrite (blocking_failure_falls_back timing_out blocking_client clan_url (Some Clan) forced
             stocked_world
             (snd (complete (request_kw timing_out blocking_client clan_url forced)
                     stocked_world))
             NotResponding clan_entry).
  - reflexivity.
  - reflexivity.
  - reflexivity.
  - vm_compute. reflexivity.
  - vm_compute. reflexivity.
Defined.

Lemma deferred_failure_raises_TypeError_witness :
  fst (complete (_get_model timing_out deferred_client clan_url (Some Clan) forced)
         stocked_world)
    = Raise unpack_coroutine.
Proof.
  rewrite (deferred_failure_raises_TypeError timing_out deferred_client clan_url (Some Clan)
             forced stocked_world
             (snd (complete (request_kw timing_out deferred_client clan_url forced)
                     stocked_world))
             NotResponding clan_entry).
  - reflexivity.
  - reflexivity.
  - reflexivity.
  - vm_compute. reflexivity.
  - vm_compute. reflexivity.
Defined.

Lemma request_refresh_identity_witness :
  complete (request (always 200 "42") blocking_client clan_url (AInt 0) [])
    (stocked clan_url clan_entry)
  = fetch (always 200 "42") blocking_client clan_url [] (stocked clan_url clan_entry).
Proof.
  apply (request_refresh_identity (always 200 "42") blocking_client clan_url (AInt 0) []
           (stocked clan_url clan_entry)).
  reflexivity.
Defined.

Lemma get_version_object_payload_witness :
  fst (complete (get_version (always 200 "42") sample_api blocking_client) empty_world)
    = Raise (TypeError "'NoneType' object is not callable") /\
  exists t, cache (snd (complete (get_version (always 200 "42") sample_api blocking_client)
                          empty_world)) !! API_VERSION sample_api
            = Some {| c_timestamp := t; data := VNum 42 |}.
Proof.
  destruct (get_version_object_payload (always 200 "42") sample_api blocking_client
              empty_world (requests_response 200 (API_VERSION sample_api) "42") 200)
    as [Hr Hc].
  - reflexivity.
  - reflexivity.
  - reflexivity.
  - lia.
  - reflexivity.
  - intros l H. discriminate H.
  - split; [exact Hr|]. apply Hc. reflexivity.
Defined.

Lemma get_clan_without_cache_witness :
  fst (complete (get_clan (always 200 "42") sample_api plain_client ["2CCCP"; "9PJ82CRC"] [])
         empty_world)
    = Return (OModel (built plain_client false 0 Clan (VNum 42))) /\
  added empty_world
    (snd (complete (get_clan (always 200 "42") sample_api plain_client ["2CCCP"; "9PJ82CRC"] [])
            empty_world))
    = [HttpGet "http://api.cr-api.com/clan/2CCCP,9PJ82CRC" 10 (headers plain_client) []].
Proof.
  apply (get_clan_without_cache (always 200 "42") sample_api plain_client
           ["2CCCP"; "9PJ82CRC"] [] empty_world
           (requests_response 200 "http://api.cr-api.com/clan/2CCCP,9PJ82CRC" "42") 200).
  - reflexivity.
  - reflexivity.
  - reflexivity.
  - lia.
  - reflexivity.
  - reflexivity.
Defined.
